(** * Blockchain: transaction submission and provider selection

    A shallow embedding of [apps/remix-ide/src/blockchain/blockchain.js]
    (class [Blockchain]) and the properties of its transaction pipeline.

    - JavaScript values are a small inductive type [jsval]; objects are
      association lists of own data properties, arrays are objects with
      index keys.  Inherited properties (prototype methods, the length of
      a string) are not modelled, and numbers are integers.  The one
      object indexed by a name that comes from outside, the provider
      registry, is looked up with the names of [Object.prototype] taken
      into account.
    - Effects are a trace of the calls made to collaborators, to the
      caller's callbacks and to the event manager, threaded through a
      small writer/exception monad [M].
    - External collaborators (execution context, providers, the
      submission engine [txRunner], [txExecution.checkVMError],
      [resultToRemixTx]) are not part of this file: their answers are
      fields of the records below or variables of a section.
    - [console.dir] calls are debugging output and are left out. *)

From Stdlib Require Import ZArith List String Bool Lia.
From stdpp Require Import base option strings pretty gmap.
Import ListNotations.

Local Open Scope string_scope.
Local Open Scope list_scope.

(** ** JavaScript values *)

#[local] Set Warnings "-register-all".

Inductive jsval : Type :=
| JUndefined
| JNull
| JBool (b : bool)
| JNum (n : Z)
| JStr (s : string)
| JObj (fields : list (string * jsval)).

(** ToBoolean. *)
Definition truthy (v : jsval) : bool :=
  match v with
  | JUndefined | JNull => false
  | JBool b => b
  | JNum n => negb (Z.eqb n 0)
  | JStr s => negb (String.eqb s "")
  | JObj _ => true
  end.

(** [v === 'lit'] for a string literal. *)
Definition strict_eq_str (v : jsval) (lit : string) : bool :=
  match v with
  | JStr s => String.eqb s lit
  | _ => false
  end.

Fixpoint lookup_field (k : string) (fs : list (string * jsval)) : jsval :=
  match fs with
  | [] => JUndefined
  | (k', v) :: fs' => if String.eqb k k' then v else lookup_field k fs'
  end.

Fixpoint update_field (k : string) (v : jsval) (fs : list (string * jsval))
  : list (string * jsval) :=
  match fs with
  | [] => [(k, v)]
  | (k', v') :: fs' =>
      if String.eqb k k' then (k, v) :: fs' else (k', v') :: update_field k v fs'
  end.

Definition mkError (name message : string) : jsval :=
  JObj [("name", JStr name); ("message", JStr message)].

Definition TypeError_read (k : string) : jsval :=
  mkError "TypeError" ("Cannot read property '" +:+ k +:+ "'").

Definition TypeError_write (k : string) : jsval :=
  mkError "TypeError" ("Cannot create property '" +:+ k +:+ "'").

Fixpoint js_array_fields (i : nat) (l : list jsval) : list (string * jsval) :=
  match l with
  | [] => [("length", JNum (Z.of_nat i))]
  | v :: l' => (pretty i, v) :: js_array_fields (S i) l'
  end.

(** An array literal [[v0, v1, ...]]. *)
Definition js_array (l : list jsval) : jsval := JObj (js_array_fields 0 l).

(** ** Traces and the monad of the embedding *)

Inductive ProviderKind : Type := VM | Injected | Node.

(** The normalized transaction record built by [runTx]. *)
Record Tx : Type := mkTx {
  tx_to : jsval;
  tx_data : jsval;
  tx_useCall : jsval;
  tx_from : jsval;
  tx_value : jsval;
  tx_gasLimit : jsval;
  tx_timestamp : jsval
}.

Definition Tx_to_js (tx : Tx) : jsval :=
  JObj [("to", tx_to tx); ("data", tx_data tx); ("useCall", tx_useCall tx);
        ("from", tx_from tx); ("value", tx_value tx);
        ("gasLimit", tx_gasLimit tx); ("timestamp", tx_timestamp tx)].

Record PayLoad : Type := mkPayLoad {
  funAbi : jsval;
  funArgs : jsval;
  contractBytecode : jsval;
  contractName : jsval;
  contractABI : jsval;
  linkReferences : jsval
}.

(** The argument array of a [callExecuted] / [transactionExecuted] event. *)
Record ExecutedArgs : Type := mkExecutedArgs {
  ex_error : jsval;
  ex_from : jsval;
  ex_to : jsval;
  ex_data : jsval;
  ex_useCall : jsval;
  ex_result : jsval;
  ex_timestamp : jsval;
  ex_payLoad : PayLoad;
  ex_rawAddress : jsval
}.

(** The compiled contract handed to the deployment entry points. *)
Record Contract : Type := mkContract {
  name : string;
  bytecodeLinkReferences : jsval;
  abi : jsval
}.

Inductive event : Type :=
| GetAccountsCall (k : ProviderKind)
| CreateVMAccountCall (k : ProviderKind) (newAccount : jsval)
| DetectNetworkCall
| Trigger_initiatingTransaction (timestamp : jsval) (tx : Tx) (payLoad : PayLoad)
| Trigger_executed (eventName : string) (args : ExecutedArgs)
| RawRunCall (tx : jsval)
| CheckVMErrorCall (txResult : jsval)
| Cb (args : list jsval)
| FinalCbError (message : string)
| FinalCbOk (selectedContract : Contract) (address : jsval)
| UncaughtInCallback (e : jsval).

Inductive outcome (A : Type) : Type :=
| Done (a : A)
| Threw (e : jsval)
| Hung.
Arguments Done {A} a.
Arguments Threw {A} e.
Arguments Hung {A}.

Definition M (A : Type) : Type := (list event * outcome A)%type.

Definition ret {A} (a : A) : M A := ([], Done a).
Definition throw {A} (e : jsval) : M A := ([], Threw e).
Definition emit (ev : event) : M unit := ([ev], Done tt).

Definition bind {A B} (m : M A) (f : A -> M B) : M B :=
  match m with
  | (t, Done a) => let '(t', o) := f a in (t ++ t', o)
  | (t, Threw e) => (t, Threw e)
  | (t, Hung) => (t, Hung)
  end.

Notation "'let*' x ':=' m 'in' k" := (bind m (fun x => k))
  (at level 10, x pattern, m at level 100, k at level 200).
Notation "m ';;' k" := (bind m (fun _ => k))
  (at level 100, k at level 200, right associativity).

(** [m] run after the events [t]. *)
Definition prepend {A} (t : list event) (m : M A) : M A := (t ++ fst m, snd m).

(** [try { body } catch (err) { handler }]. *)
Definition try_catch {A} (body : M A) (handler : jsval -> M A) : M A :=
  match body with
  | (t, Threw e) => let '(t', o) := handler e in (t ++ t', o)
  | other => other
  end.

Definition trace {A} (m : M A) : list event := fst m.
Definition result {A} (m : M A) : outcome A := snd m.

(** Property read [v.k]: a [TypeError] on [undefined] and [null]. *)
Definition get (v : jsval) (k : string) : M jsval :=
  match v with
  | JUndefined | JNull => throw (TypeError_read k)
  | JObj fs => ret (lookup_field k fs)
  | JStr (String c _) => ret (if String.eqb k "0" then JStr (String c "") else JUndefined)
  | _ => ret JUndefined
  end.

(** Property write [v.k = x] in strict mode (class bodies are strict):
    a [TypeError] unless [v] is an object. *)
Definition set (v : jsval) (k : string) (x : jsval) : M jsval :=
  match v with
  | JObj fs => ret (JObj (update_field k x fs))
  | _ => throw (TypeError_write k)
  end.

(** The result of calling a pure external function. *)
Inductive completion : Type :=
| Normal (v : jsval)
| Abrupt (e : jsval).

Definition call (c : completion) : M jsval :=
  match c with
  | Normal v => ret v
  | Abrupt e => throw e
  end.

(** ** Collaborators *)

(** A backend provider ([providers/vm.js], [providers/injected.js],
    [providers/node.js]).  [getAccounts_reply] is the pair
    [(error, accounts)] the provider passes to the callback of
    [getAccounts], if it ever calls it. *)
Record Provider : Type := mkProvider {
  kind : ProviderKind;
  getAccounts_reply : option (jsval * jsval);
  createVMAccount_reply : jsval -> completion
}.

(** [remixLib.execution.executionContext]. *)
Record ExecutionContext : Type := mkExecutionContext {
  ec_getProvider : string;
  ec_isVM : bool;
  (** [(error, network)] passed to the callback of [detectNetwork]. *)
  ec_detectNetwork : option (jsval * jsval)
}.

(** The injected transaction context: each accessor is optional; when
    present the field holds what the accessor returns. *)
Record TransactionContext : Type := mkTransactionContext {
  getGasLimit : option jsval;
  getValue : option jsval;
  getAddress : option jsval
}.

(** One callback invocation made by the submission engine [rawRun]. *)
Inductive engine_call : Type :=
| ConfirmationCb (network tx gasEstimation : jsval)
| ContinueCb (error : jsval)
| PromptCb
| ResultCb (error result : jsval).

Record TxRunner : Type := mkTxRunner {
  rawRun : jsval -> list engine_call
}.

(** The fields of a [Blockchain] instance that the modelled methods read. *)
Record Blockchain : Type := mkBlockchain {
  executionContext : ExecutionContext;
  providers : gmap string Provider;
  transactionContextAPI : option TransactionContext;
  txRunner : TxRunner;
  (** [providers.vm.RemixSimulatorProvider.Accounts.accounts[address]], as a boolean. *)
  vmAccounts : jsval -> bool;
  (** [Date.now()]. *)
  now : Z
}.

(** ** Provider registry *)

(** [setupProviders]: the three instances are built by the provider
    classes, which live outside this file. *)
Definition setupProviders (vm injected web3 : Provider) : gmap string Provider :=
  <["web3" := web3]> (<["injected" := injected]> (<["vm" := vm]> ∅)).

Definition getProvider (self : Blockchain) : string :=
  ec_getProvider (executionContext self).

(** The property names every plain object inherits from
    [Object.prototype]; what is found under each of them is truthy (a
    function, or the prototype itself for [__proto__]). *)
Definition Object_prototype_keys : list string :=
  ["constructor"; "hasOwnProperty"; "isPrototypeOf"; "propertyIsEnumerable";
   "toLocaleString"; "toString"; "valueOf"; "__proto__"; "__defineGetter__";
   "__defineSetter__"; "__lookupGetter__"; "__lookupSetter__"].

Definition inherited (name : string) : bool :=
  existsb (String.eqb name) Object_prototype_keys.

(** What [this.providers[name]] finds: [providers] is the plain object
    [{}] of [setupProviders], so a name that is not registered can still
    be found on the prototype. *)
Inductive property : Type :=
| Own (p : Provider)
| Inherited
| Absent.

Definition providers_get (providers : gmap string Provider) (name : string)
  : property :=
  match providers !! name with
  | Some p => Own p
  | None => if inherited name then Inherited else Absent
  end.

(** [getCurrentProvider]: [None] stands for a value that is not a
    provider: [undefined], or the truthy inherited value that line 63
    returns as it is. *)
Definition getCurrentProvider (self : Blockchain) : option Provider :=
  let provider := getProvider self in
  match providers_get (providers self) provider with
  | Own p => Some p
  | Inherited => None
  | Absent =>
      match providers_get (providers self) "web3" with
      | Own p => Some p
      | _ => None
      end
  end.

Definition createVMAccount_message : string :=
  "plugin API does not allow creating a new account through web3 connection. Only vm mode is allowed".

Definition createVMAccount (self : Blockchain) (newAccount : jsval) : M jsval :=
  if negb (String.eqb (getProvider self) "vm") then
    throw (mkError "Error" createVMAccount_message)
  else
    match providers self !! "vm" with
    | None => throw (TypeError_read "createVMAccount")
    | Some p =>
        emit (CreateVMAccountCall (kind p) newAccount);;
        call (createVMAccount_reply p newAccount)
    end.

(** ** Promises *)

Inductive promise : Type :=
| Pending
| Fulfilled (v : jsval)
| Rejected (e : jsval).

(** [resolve] and [reject] only act on a pending promise. *)
Definition settle (p new : promise) : promise :=
  match p with
  | Pending => new
  | _ => p
  end.

Definition await (p : list event * promise) : M jsval :=
  match p with
  | (t, Fulfilled v) => (t, Done v)
  | (t, Rejected e) => (t, Threw e)
  | (t, Pending) => (t, Hung)
  end.

(** The events of one callback invocation made by a collaborator: an
    exception that escapes the callback is not seen by the method that
    installed it. *)
Definition in_callback (m : M unit) : list event :=
  match m with
  | (t, Done _) => t
  | (t, Threw e) => t ++ [UncaughtInCallback e]
  | (t, Hung) => t
  end.

(** [getAccounts (cb)]: with a callback the promise is never settled. *)
Definition getAccounts (self : Blockchain) (cb : option (jsval -> jsval -> M unit))
  : list event * promise :=
  match getCurrentProvider self with
  | None => ([], Rejected (TypeError_read "getAccounts"))
  | Some p =>
      match getAccounts_reply p with
      | None => ([GetAccountsCall (kind p)], Pending)
      | Some (error, accounts) =>
          match cb with
          | Some cb => (GetAccountsCall (kind p) :: in_callback (cb error accounts), Pending)
          | None =>
              ([GetAccountsCall (kind p)],
               if truthy error then Rejected error else Fulfilled accounts)
          end
      end
  end.

(** ** The transaction pipeline: resolution (runTx, first half) *)

Definition isVM (self : Blockchain) : bool := ec_isVM (executionContext self).

Definition the_transactionContextAPI (self : Blockchain) : M TransactionContext :=
  match transactionContextAPI self with
  | Some ctx => ret ctx
  | None => throw (TypeError_read "getGasLimit")
  end.

Definition runTx_gasLimit (ctx : TransactionContext) : jsval :=
  match getGasLimit ctx with
  | Some g => g
  | None => JNum 3000000
  end.

Definition runTx_value (args : jsval) (ctx : TransactionContext) : M jsval :=
  let* v := get args "value" in
  if truthy v then ret v
  else
    let* useCall := get args "useCall" in
    (* [args.useCall || !self.transactionContextAPI.getValue] *)
    if truthy useCall then ret (JNum 0)
    else
      match getValue ctx with
      | None => ret (JNum 0)
      | Some dv => ret dv
      end.

Definition runTx_from (self : Blockchain) (args : jsval) (ctx : TransactionContext)
  : M jsval :=
  let* f := get args "from" in
  if truthy f then ret f
  else
    match getAddress ctx with
    | Some a => ret a
    | None =>
        try_catch
          (let* accounts := await (getAccounts self None) in
           let* address := get accounts "0" in
           if negb (truthy address) then
             throw (mkError "Error" "No accounts available")
           else if isVM self && negb (vmAccounts self address) then
             throw (mkError "Error" "Invalid account selected")
           else ret address)
          (fun _ => ret (JNum 0))
    end.

Definition runTx_payLoad (data : jsval) : M PayLoad :=
  let* a := get data "funAbi" in
  let* b := get data "funArgs" in
  let* c := get data "contractBytecode" in
  let* d := get data "contractName" in
  let* e := get data "contractABI" in
  let* f := get data "linkReferences" in
  ret (mkPayLoad a b c d e f).

(** Lines 451-489 of [runTx]: the normalized record, the timestamp and
    the payload announced with it. *)
Definition runTx_build (self : Blockchain) (args : jsval) : M (Tx * jsval * PayLoad) :=
  let* ctx := the_transactionContextAPI self in
  let gasLimit := runTx_gasLimit ctx in
  let* value := runTx_value args ctx in
  let* from := runTx_from self args ctx in
  let* to := get args "to" in
  let* data := get args "data" in
  let* dataHex := get data "dataHex" in
  let* useCall := get args "useCall" in
  let* ts := get data "timestamp" in
  let tx := mkTx to dataHex useCall from value gasLimit ts in
  let* payLoad := runTx_payLoad data in
  let timestamp :=
    if truthy (tx_timestamp tx) then tx_timestamp tx else JNum (now self) in
  ret (tx, timestamp, payLoad).

(** Lines 109-115 of [createContract]: the intent handed to [runTx]. *)
Definition createContract_args (selectedContract : Contract) (data : jsval) : M jsval :=
  let* data :=
    (if truthy data then
       let* d1 := set data "contractName" (JStr (name selectedContract)) in
       let* d2 := set d1 "linkReferences" (bytecodeLinkReferences selectedContract) in
       set d2 "contractABI" (abi selectedContract)
     else ret data) in
  ret (JObj [("data", data); ("useCall", JBool false)]).

(** The caller's opaque callback. *)
Definition caller_cb (args : list jsval) : M unit := emit (Cb args).

Definition mainnet_message : string :=
  "It is not allowed to make this action against mainnet".

Section Pipeline.

(** [txExecution.checkVMError] and [resultToRemixTx] are functions of
    other modules; ToString is the conversion used by template
    literals. *)
Variable checkVMError : jsval -> completion.
Variable resultToRemixTx : jsval -> completion.
Variable ToString : jsval -> string.

(** Lines 515-523: address and return value handed to the callback. *)
Definition runTx_deliver (isVM : bool) (txResult : jsval) (cb : list jsval -> M unit)
  : M unit :=
  let* ar :=
    (if truthy txResult then
       let* r := get txResult "result" in
       if truthy r then
         let* address := get r (if isVM then "createdAddress" else "contractAddress") in
         let* execResult := get r "execResult" in
         let* returnValue :=
           (if truthy execResult && isVM then get execResult "returnValue" else ret r) in
         ret (address, returnValue)
       else ret (JNull, JNull)
     else ret (JNull, JNull)) in
  cb [JNull; txResult; fst ar; snd ar].

(** The function handed to [rawRun] as result callback (lines 495-524). *)
Definition runTx_resultCb (self : Blockchain) (tx : Tx) (timestamp : jsval)
    (payLoad : PayLoad) (cb : list jsval -> M unit) (error result : jsval) : M unit :=
  if truthy error then cb [error]
  else
    let* r := get result "result" in
    let* rawAddress :=
      get r (if isVM self then "createdAddress" else "contractAddress") in
    let eventName :=
      if truthy (tx_useCall tx) then "callExecuted" else "transactionExecuted" in
    emit (Trigger_executed eventName
            (mkExecutedArgs JNull (tx_from tx) (tx_to tx) (tx_data tx) (tx_useCall tx)
               result timestamp payLoad rawAddress));;
    let txResult := result in
    let isVM := isVM self in
    if isVM then
      emit (CheckVMErrorCall txResult);;
      let* vmError := call (checkVMError txResult) in
      let* e := get vmError "error" in
      if truthy e then
        let* message := get vmError "message" in
        cb [message]
      else runTx_deliver isVM txResult cb
    else runTx_deliver isVM txResult cb.

(** The result-callback invocations the engine makes for one [rawRun]. *)
Definition engine_results (handler : jsval -> jsval -> M unit)
    (calls : list engine_call) : list event :=
  flat_map (fun c =>
              match c with
              | ResultCb error result => in_callback (handler error result)
              | _ => []
              end) calls.

(** [runTx]: [Done] is the fulfilled promise of the async function,
    [Threw] a rejected one, [Hung] one that never settles.  The three
    confirmation hooks are forwarded to [rawRun] untouched. *)
Definition runTx (self : Blockchain) (args : jsval) (cb : list jsval -> M unit)
  : M unit :=
  let* built := runTx_build self args in
  let '(tx, timestamp, payLoad) := built in
  emit (Trigger_initiatingTransaction timestamp tx payLoad);;
  emit (RawRunCall (Tx_to_js tx));;
  (engine_results (runTx_resultCb self tx timestamp payLoad cb)
     (rawRun (txRunner self) (Tx_to_js tx)), Done tt).

(** ** Contract creation *)

Definition creation_errored (c : Contract) (what : string) : string :=
  "creation of " +:+ name c +:+ " errored: " +:+ what.

(** The callback [createContract] hands to [runTx] (lines 116-124). *)
Definition createContract_cb (selectedContract : Contract) (args : list jsval)
  : M unit :=
  let error := nth 0 args JUndefined in
  let txResult := nth 1 args JUndefined in
  let address := nth 2 args JUndefined in
  if truthy error then
    let* message := get error "message" in
    emit (FinalCbError
            (creation_errored selectedContract
               (ToString (if truthy message then message else error))))
  else
    let* r := get txResult "result" in
    let* status := get r "status" in
    if truthy status && strict_eq_str status "0x0" then
      emit (FinalCbError
              (creation_errored selectedContract "transaction execution failed"))
    else emit (FinalCbOk selectedContract address).

Definition createContract (self : Blockchain) (selectedContract : Contract)
    (data : jsval) : M unit :=
  let* args := createContract_args selectedContract data in
  runTx self args (createContract_cb selectedContract).

(** ** sendTransaction *)

(** The hooks and the result callback [sendTransaction] hands to
    [rawRun], as their effect on the returned promise. *)
Definition sendTransaction_step (p : promise) (c : engine_call) : promise :=
  match c with
  | ConfirmationCb _ _ _ => p
  | ContinueCb error => if truthy error then settle p (Rejected error) else p
  | PromptCb => p
  | ResultCb error result =>
      if truthy error then settle p (Rejected error)
      else
        match resultToRemixTx result with
        | Normal v => settle p (Fulfilled v)
        | Abrupt e => settle p (Rejected e)
        end
  end.

Definition is_mainnet (network : jsval) : M bool :=
  let* name := get network "name" in
  if strict_eq_str name "Main" then
    let* id := get network "id" in
    ret (strict_eq_str id "1")
  else ret false.

(** [sendTransaction]: the calls made and the state of the returned
    promise.  The callback of [detectNetwork] runs after the executor
    has returned, so an exception in it leaves the promise pending. *)
Definition sendTransaction (self : Blockchain) (tx : jsval) : list event * promise :=
  match ec_detectNetwork (executionContext self) with
  | None => ([DetectNetworkCall], Pending)
  | Some (error, network) =>
      if truthy error then ([DetectNetworkCall], Rejected error)
      else
        match is_mainnet network with
        | (_, Done true) =>
            ([DetectNetworkCall], Rejected (mkError "Error" mainnet_message))
        | (_, Done false) =>
            ([DetectNetworkCall; RawRunCall tx],
             fold_left sendTransaction_step (rawRun (txRunner self) tx) Pending)
        | (_, Threw e) => ([DetectNetworkCall; UncaughtInCallback e], Pending)
        | (_, Hung) => ([DetectNetworkCall], Pending)
        end
  end.

End Pipeline.

(** ** Predicates on events *)

Definition is_GetAccountsCall (ev : event) : bool :=
  match ev with GetAccountsCall _ => true | _ => false end.

Definition is_executed (ev : event) : bool :=
  match ev with Trigger_executed _ _ => true | _ => false end.

Definition is_CheckVMErrorCall (ev : event) : bool :=
  match ev with CheckVMErrorCall _ => true | _ => false end.

(** The events the result callback of [runTx] can cause when the caller's
    callback is opaque. *)
Definition from_resultCb (ev : event) : bool :=
  match ev with
  | Trigger_executed _ _ | CheckVMErrorCall _ | Cb _ | UncaughtInCallback _ => true
  | _ => false
  end.

(** The [(error, result)] pairs the engine passes to the result callback. *)
Fixpoint result_calls (calls : list engine_call) : list (jsval * jsval) :=
  match calls with
  | [] => []
  | ResultCb error result :: calls' => (error, result) :: result_calls calls'
  | _ :: calls' => result_calls calls'
  end.

(** The value of [v.k] when the read does not throw. *)
Definition field (v : jsval) (k : string) : jsval :=
  match result (get v k) with
  | Done x => x
  | _ => JUndefined
  end.

(** The backend-dependent name of the field holding the new address. *)
Definition address_field (self : Blockchain) : string :=
  if isVM self then "createdAddress" else "contractAddress".

Definition executed_name (tx : Tx) : string :=
  if truthy (tx_useCall tx) then "callExecuted" else "transactionExecuted".

Definition executed_args (tx : Tx) (timestamp : jsval) (payLoad : PayLoad)
    (result rawAddress : jsval) : ExecutedArgs :=
  mkExecutedArgs JNull (tx_from tx) (tx_to tx) (tx_data tx) (tx_useCall tx)
    result timestamp payLoad rawAddress.

(** The return value handed to the callback for a receipt [r]. *)
Definition returnValue_of (self : Blockchain) (r : jsval) : jsval :=
  if truthy (field r "execResult") && isVM self
  then field (field r "execResult") "returnValue"
  else r.

(** ** Sample collaborators and inputs *)

Module Sample.

Definition account : jsval := JStr "0x5B38Da6a701c568545dCfcB03FcB875f56beddC4".

Definition vm : Provider :=
  mkProvider VM (Some (JNull, js_array [account])) (fun a => Normal a).
Definition injected : Provider :=
  mkProvider Injected (Some (JNull, js_array [])) (fun _ => Abrupt JNull).
Definition web3 : Provider :=
  mkProvider Node (Some (JNull, js_array [])) (fun _ => Abrupt JNull).

Definition mainnet : jsval := JObj [("id", JStr "1"); ("name", JStr "Main")].

Definition context (provider : string) (isVM : bool) : ExecutionContext :=
  mkExecutionContext provider isVM (Some (JNull, mainnet)).

(** A context API without any accessor. *)
Definition bare : TransactionContext := mkTransactionContext None None None.

(** A context API with a default value of 7 wei. *)
Definition with_value : TransactionContext :=
  mkTransactionContext None (Some (JNum 7)) None.

Definition receipt : jsval :=
  JObj [("createdAddress", JStr "0xd9145CCE52D386f254917e481eB44e9943F39138");
        ("contractAddress", JStr "0x0fC5025C764cE34df352757e82f7B5c4Df39A836");
        ("status", JStr "0x0")].

(** An engine that reports one successful result. *)
Definition engine_ok : TxRunner :=
  mkTxRunner (fun _ => [ResultCb JNull (JObj [("result", receipt)])]).

(** An engine on which the caller cancelled in a confirmation hook. *)
Definition engine_cancelled : TxRunner :=
  mkTxRunner (fun _ => [ConfirmationCb JNull JNull (JNum 21000);
                        ResultCb (JStr "Transaction canceled by user.") JUndefined]).

Definition blockchain (provider : string) (isVM : bool)
    (ctx : TransactionContext) (engine : TxRunner) : Blockchain :=
  mkBlockchain (context provider isVM) (setupProviders vm injected web3)
    (Some ctx) engine (fun _ => true) 1600000000000.

Definition no_vm_error (_ : jsval) : completion :=
  Normal (JObj [("error", JBool false); ("message", JStr "")]).

Definition vm_reverted (_ : jsval) : completion :=
  Normal (JObj [("error", JBool true); ("message", JStr "VM error: revert.")]).

Definition to_remix_tx (r : jsval) : completion := Normal r.

Definition to_string (v : jsval) : string :=
  match v with
  | JStr s => s
  | _ => "[object Object]"
  end.

Definition bytecode : jsval := JObj [("dataHex", JStr "0x6080604052")].

Definition storage : Contract := mkContract "Storage" (JObj []) (JObj []).

(** The intent [createContract] builds for [storage] from [bytecode]. *)
Definition creation_args : jsval :=
  JObj [("data",
         JObj [("dataHex", JStr "0x6080604052"); ("contractName", JStr "Storage");
               ("linkReferences", JObj []); ("contractABI", JObj [])]);
        ("useCall", JBool false)].

(** A read-only call, and the same call with an explicit value. *)
Definition call_intent : jsval :=
  JObj [("to", account); ("data", bytecode); ("useCall", JBool true)].

Definition call_intent_with_value : jsval :=
  JObj [("to", account); ("data", bytecode); ("useCall", JBool true);
        ("value", JNum 5)].

(** A transaction with an explicit sender. *)
Definition sender : jsval := JStr "0xAb8483F64d9C6d1EcF9b849Ae677dD3315835cb2".

Definition intent_with_from : jsval :=
  JObj [("to", account); ("data", bytecode); ("useCall", JBool false);
        ("from", sender)].

(** The record and payload [runTx] builds for [deployment] when no
    account is available. *)
Definition deployment_tx : Tx :=
  mkTx JUndefined (JStr "0x6080604052") (JBool false) (JNum 0) (JNum 0)
    (JNum 3000000) JUndefined.

Definition no_payLoad : PayLoad :=
  mkPayLoad JUndefined JUndefined JUndefined JUndefined JUndefined JUndefined.

(** A deployment: no destination, no sender, no value. *)
Definition deployment : jsval :=
  JObj [("data", bytecode); ("useCall", JBool false)].

End Sample.

(** ** Further entry points of the class *)

Definition is_Cb (ev : event) : bool :=
  match ev with Cb _ => true | _ => false end.

Definition is_RawRunCall (ev : event) : bool :=
  match ev with RawRunCall _ => true | _ => false end.

Definition is_initiating (ev : event) : bool :=
  match ev with Trigger_initiatingTransaction _ _ _ => true | _ => false end.

Definition is_FinalCb (ev : event) : bool :=
  match ev with FinalCbError _ | FinalCbOk _ _ => true | _ => false end.

(** The end of one callback invocation of the engine: the caller's
    callback is called, or an exception escapes. *)
Definition is_answer (ev : event) : bool :=
  is_Cb ev || match ev with UncaughtInCallback _ => true | _ => false end.

(** Events of the submission pipeline proper: announcement, dispatch,
    execution notification, final callback. *)
Definition is_submission (ev : event) : bool :=
  is_initiating ev || is_RawRunCall ev || is_executed ev || is_FinalCb ev.

(** [isWeb3Provider], [isInjectedWeb3], [context]. *)
Definition isWeb3Provider (self : Blockchain) : bool :=
  let isVM := String.eqb (getProvider self) "vm" in
  let isInjected := String.eqb (getProvider self) "injected" in
  negb isVM && negb isInjected.

Definition isInjectedWeb3 (self : Blockchain) : bool :=
  String.eqb (getProvider self) "injected".

Definition context (self : Blockchain) : string :=
  if isVM self then "memory" else "blockchain".

(** The [personalMode] closure handed to [TxRunner]; [config_get] is
    [this.config.get]. *)
Definition personalMode (config_get : string -> jsval) (self : Blockchain) : jsval :=
  if String.eqb (getProvider self) "web3"
  then config_get "settings/personal-mode"
  else JBool false.

(** [updateNetwork]: the callback of [detectNetwork] destructures its
    second argument, with [{}] as default for [undefined]. *)
Definition updateNetwork (self : Blockchain) (cb : list jsval -> M unit) : list event :=
  match ec_detectNetwork (executionContext self) with
  | None => [DetectNetworkCall]
  | Some (err, network) =>
      DetectNetworkCall ::
      in_callback
        (let network := match network with JUndefined => JObj [] | _ => network end in
         let* id := get network "id" in
         let* name := get network "name" in
         if truthy err then cb [err]
         else cb [JNull; JObj [("id", id); ("name", name)]])
  end.

(** One callback invocation made by [txFormat.buildData] or
    [txFormat.encodeConstructorCallAndLinkLibraries]. *)
Inductive formatter_call : Type :=
| Formatter_callback (error data : jsval)
| Formatter_step (msg : jsval)
| Formatter_deployLibrary (data : jsval).


Definition warnMessage : string :=
  " Please fix this issue before sending any transaction. ".

(** [unit || 'ether'] and the like. *)
Definition or_default (unit : jsval) (default : string) : jsval :=
  if truthy unit then unit else JStr default.

Section Orchestration.

Variable checkVMError : jsval -> completion.
Variable ToString : jsval -> string.

(** Answers of the providers and of the libraries the class calls:
    [provider.getGasPrice], [provider.callMethod], [Web3.utils],
    [typeConversion.toInt] and the [toString(10)] method of a value. *)
Variable getGasPrice_reply : Provider -> option (jsval * jsval).
Variable provider_callMethod : Provider -> jsval -> jsval -> jsval -> promise.
Variable Web3_fromWei : jsval -> jsval -> completion.
Variable Web3_toWei : jsval -> jsval -> completion.
Variable Web3_toBN : jsval -> completion.
Variable BN_mul : jsval -> jsval -> completion.
Variable typeConversion_toInt : jsval -> completion.
Variable toString10 : jsval -> completion.

(** [value.toString(10)]. *)
Definition method_toString10 (value : jsval) : M jsval :=
  match value with
  | JUndefined | JNull => throw (TypeError_read "toString")
  | _ => call (toString10 value)
  end.

Definition fromWei (value doTypeConversion unit : jsval) : M jsval :=
  if truthy doTypeConversion then
    let* n := call (typeConversion_toInt value) in
    call (Web3_fromWei n (or_default unit "ether"))
  else
    let* s := method_toString10 value in
    call (Web3_fromWei s (or_default unit "ether")).

Definition toWei (value unit : jsval) : M jsval :=
  call (Web3_toWei value (or_default unit "gwei")).

Definition calculateFee (gas gasPrice unit : jsval) : M jsval :=
  let* a := call (Web3_toBN gas) in
  let* _ := get a "mul" in
  let* s := method_toString10 gasPrice in
  let* w := call (Web3_toWei s (or_default unit "gwei")) in
  let* b := call (Web3_toBN w) in
  call (BN_mul a b).

(** [determineGasPrice]: what happens in the callback of [getGasPrice]. *)
Definition determineGasPrice_cb (cb : list jsval -> M unit) (error gasPrice : jsval)
  : M unit :=
  if truthy error then
    cb [JStr ("Unable to retrieve the current network gas price." +:+ warnMessage
              +:+ ToString error)]
  else
    try_catch
      (let* gasPriceValue := fromWei gasPrice (JBool false) (JStr "gwei") in
       cb [JNull; gasPriceValue])
      (fun e =>
         let* message := get e "message" in
         cb [JStr (warnMessage +:+ ToString message); JNull; JBool false]).

Definition determineGasPrice (self : Blockchain) (cb : list jsval -> M unit) : M unit :=
  match getCurrentProvider self with
  | None => throw (TypeError_read "getGasPrice")
  | Some p =>
      match getGasPrice_reply p with
      | None => ret tt
      | Some (error, gasPrice) =>
          (in_callback (determineGasPrice_cb cb error gasPrice), Done tt)
      end
  end.

(** The [try] block of [determineGasFeesCb]: the text and the status. *)
Definition determineGasFees_try (tx gasPrice : jsval) : M (jsval * jsval) :=
  let* gas := get tx "gas" in
  let* fee := calculateFee gas gasPrice JUndefined in
  let* ether := fromWei fee (JBool false) (JStr "ether") in
  ret (JStr (" " +:+ ToString ether +:+ " Ether"), JBool true).

(** [determineGasFees (tx)] returns [determineGasFeesCb]; this is the
    latter for a given [tx]. *)
Definition determineGasFees (tx gasPrice : jsval) (cb : list jsval -> M unit) : M unit :=
  let* r :=
    try_catch (determineGasFees_try tx gasPrice)
      (fun e =>
         let* message := get e "message" in
         ret (JStr (warnMessage +:+ ToString message), JBool false)) in
  cb [fst r; snd r].

(** ** Deployment *)





(** ** Calling a method of a deployed contract *)

Definition errored (logMsg : string) (error : jsval) : jsval :=
  JStr (logMsg +:+ " errored: " +:+ ToString error +:+ " ").

(** The callback [runOrCallContractMethod] hands to [runTx]. *)
Definition runOrCallContractMethod_runTx_cb (lookupOnly : jsval) (logMsg : string)
    (logCallback outputCb : jsval -> M unit) (args : list jsval) : M unit :=
  let error := nth 0 args JUndefined in
  let returnValue := nth 3 args JUndefined in
  if truthy error then logCallback (errored logMsg error)
  else if truthy lookupOnly then outputCb returnValue
  else ret tt.

(** The intent [runOrCallContractMethod] builds from the formatter's data. *)
Definition runOrCallContractMethod_args (funABI value address data : jsval) : M jsval :=
  let* type := get funABI "type" in
  let* data :=
    (if strict_eq_str type "fallback" then set data "dataHex" value else ret data) in
  let* stateMutability := get funABI "stateMutability" in
  let useCall :=
    strict_eq_str stateMutability "view" || strict_eq_str stateMutability "pure" in
  ret (JObj [("to", address); ("data", data); ("useCall", JBool useCall)]).

(** The callback [runOrCallContractMethod] hands to the formatter. *)
Definition runOrCallContractMethod_cb (self : Blockchain)
    (funABI value address lookupOnly : jsval) (logMsg : string)
    (logCallback outputCb : jsval -> M unit) (error data : jsval) : M unit :=
  if truthy error then logCallback (errored logMsg error)
  else
    (if negb (truthy lookupOnly)
     then logCallback (JStr (logMsg +:+ " pending ... "))
     else logCallback (JStr logMsg));;
    let* args := runOrCallContractMethod_args funABI value address data in
    runTx checkVMError self args
      (runOrCallContractMethod_runTx_cb lookupOnly logMsg logCallback outputCb).

Definition runOrCallContractMethod (self : Blockchain)
    (funABI value address lookupOnly : jsval) (logMsg : string)
    (logCallback outputCb : jsval -> M unit) (formatter : list formatter_call)
  : list event :=
  flat_map (fun a =>
              match a with
              | Formatter_callback error data =>
                  in_callback
                    (runOrCallContractMethod_cb self funABI value address lookupOnly
                       logMsg logCallback outputCb error data)
              | Formatter_step msg => in_callback (logCallback msg)
              | Formatter_deployLibrary data =>
                  in_callback (runTx checkVMError self data (fun _ => ret tt))
              end) formatter.

(** ** callMethod *)

(** Lines 253-274: as in [runTx], without the explicit sender. *)
Definition callMethod_from (self : Blockchain) (ctx : TransactionContext) : M jsval :=
  match getAddress ctx with
  | Some a => ret a
  | None =>
      try_catch
        (let* accounts := await (getAccounts self None) in
         let* address := get accounts "0" in
         if negb (truthy address) then
           throw (mkError "Error" "No accounts available")
         else if isVM self && negb (vmAccounts self address) then
           throw (mkError "Error" "Invalid account selected")
         else ret address)
        (fun _ => ret (JNum 0))
  end.

Definition empty_payLoad : PayLoad :=
  mkPayLoad JUndefined JUndefined JUndefined JUndefined JUndefined JUndefined.

Definition callMethod (self : Blockchain) (address abi methodName : jsval)
    (outputCb : jsval -> M unit) : M unit :=
  let* ctx := the_transactionContextAPI self in
  let gasLimit := runTx_gasLimit ctx in
  let value := JNum 0 in
  let* from := callMethod_from self ctx in
  let tx := mkTx address (JStr "0x123") (JBool true) from value gasLimit
              (JNum (now self)) in
  let payLoad := empty_payLoad in
  let timestamp :=
    if truthy (tx_timestamp tx) then tx_timestamp tx else JNum (now self) in
  let* returnValue :=
    await (match getCurrentProvider self with
           | None => ([], Rejected (TypeError_read "callMethod"))
           | Some p => ([], provider_callMethod p address abi methodName)
           end) in
  emit (Trigger_executed "callExecuted"
          (mkExecutedArgs JNull (tx_from tx) (tx_to tx) (tx_data tx) (tx_useCall tx)
             returnValue timestamp payLoad address));;
  outputCb returnValue.

End Orchestration.

(** The promise of the provider's [callMethod]. *)
Definition callMethod_promise
    (provider_callMethod : Provider -> jsval -> jsval -> jsval -> promise)
    (self : Blockchain) (address abi methodName : jsval) : promise :=
  match getCurrentProvider self with
  | None => Rejected (TypeError_read "callMethod")
  | Some p => provider_callMethod p address abi methodName
  end.

(** Opaque callbacks of a caller, told apart by a tag. *)
Definition tagged_cb (tag : string) (v : jsval) : M unit := emit (Cb [JStr tag; v]).


(** A call of the engine that leaves the promise of [sendTransaction]
    as it is: an approved hook, or a continue hook without error. *)
Definition leaves_pending (c : engine_call) : bool :=
  match c with
  | ConfirmationCb _ _ _ | PromptCb => true
  | ContinueCb error => negb (truthy error)
  | ResultCb _ _ => false
  end.

(** What one settling call of the engine makes of the promise of
    [sendTransaction]. *)
Definition settlement (resultToRemixTx : jsval -> completion) (c : engine_call)
  : promise :=
  sendTransaction_step resultToRemixTx Pending c.

(** A computation without events that cannot stay open. *)
Definition quiet {A} (m : M A) : Prop := trace m = [] /\ result m <> Hung.

(** A callback invocation that ends in exactly one call of the caller's
    callback or in one uncaught exception. *)
Definition answers_once (m : M unit) : Prop :=
  length (List.filter is_answer (in_callback m)) = 1.

(** ** More sample inputs *)

Module More.

Definition goerli : jsval :=
  JObj [("id", JStr "5"); ("name", JStr "Goerli"); ("lastBlock", JNum 42)].

(** A network that calls itself Main but reports a numeric id. *)
Definition main_numeric : jsval := JObj [("id", JNum 1); ("name", JStr "Main")].

(** An engine whose gas estimation fails before it reports a result. *)
Definition engine_estimation_failed : TxRunner :=
  mkTxRunner (fun _ => [ConfirmationCb JNull JNull (JNum 21000);
                        ContinueCb (JStr "gas estimation failed");
                        ResultCb JNull (JObj [("result", Sample.receipt)])]).

Definition blockchain_on (network : jsval) (provider : string) (isVM : bool)
    (ctx : TransactionContext) (engine : TxRunner) : Blockchain :=
  mkBlockchain (mkExecutionContext provider isVM (Some (JNull, network)))
    (setupProviders Sample.vm Sample.injected Sample.web3)
    (Some ctx) engine (fun _ => true) 1600000000000.

(** A receipt of a mined creation, and an engine that reports it. *)
Definition receipt_ok : jsval :=
  JObj [("createdAddress", JStr "0xd9145CCE52D386f254917e481eB44e9943F39138");
        ("contractAddress", JStr "0x0fC5025C764cE34df352757e82f7B5c4Df39A836");
        ("status", JStr "0x1")].

Definition engine_mined : TxRunner :=
  mkTxRunner (fun _ => [ResultCb JNull (JObj [("result", receipt_ok)])]).

(** The ABI of a fallback function, the intent built for it from
    [Sample.bytecode] with the value [0xdeadbeef], and the ABI of a
    state-changing method. *)
Definition fallback_abi : jsval :=
  JObj [("type", JStr "fallback"); ("stateMutability", JStr "payable")].

Definition fallback_args : jsval :=
  JObj [("to", Sample.account);
        ("data", JObj [("dataHex", JStr "0xdeadbeef")]);
        ("useCall", JBool false)].

Definition transfer_abi : jsval :=
  JObj [("type", JStr "function"); ("stateMutability", JStr "nonpayable")].

(** A callback that throws when it is handed a result. *)
Definition cb_failing_on_success (args : list jsval) : M unit :=
  match args with
  | JNull :: _ => throw (mkError "Error" "cannot render")
  | _ => emit (Cb args)
  end.

(** A context API that only offers a default sender. *)
Definition with_address : TransactionContext :=
  mkTransactionContext None None (Some Sample.sender).

End More.

(** ** The provider registry *)

Lemma setupProviders_lookup (vm injected web3 : Provider) (provider : string) :
  setupProviders vm injected web3 !! provider =
    if decide (provider = "web3") then Some web3
    else if decide (provider = "injected") then Some injected
    else if decide (provider = "vm") then Some vm
    else None.
Proof.
  unfold setupProviders.
  repeat case_decide; subst; simplify_map_eq; done.
Qed.

Lemma setupProviders_dom (vm injected web3 : Provider) :
  dom (setupProviders vm injected web3) = ({["vm"; "injected"; "web3"]} : gset string).
Proof.
  unfold setupProviders. rewrite !dom_insert_L, dom_empty_L. set_solver.
Qed.

Lemma providers_get_setupProviders (vm injected web3 : Provider) (provider : string) :
  providers_get (setupProviders vm injected web3) provider =
    if decide (provider = "web3") then Own web3
    else if decide (provider = "injected") then Own injected
    else if decide (provider = "vm") then Own vm
    else if inherited provider then Inherited else Absent.
Proof.
  unfold providers_get. rewrite setupProviders_lookup.
  repeat case_decide; reflexivity.
Qed.

(** For every selected name outside [Object.prototype] the registry
    behaves as a lookup with a default: exactly [vm], [injected] and
    [web3] are registered, a registered name gives its provider and any
    other name the [web3] provider. *)
Lemma getCurrentProvider_registered_or_default
    (ec : ExecutionContext) (vm injected web3 : Provider)
    (ctx : option TransactionContext) (engine : TxRunner)
    (accounts : jsval -> bool) (t : Z) :
  let self := mkBlockchain ec (setupProviders vm injected web3) ctx engine accounts t in
  dom (providers self) = ({["vm"; "injected"; "web3"]} : gset string)
  /\ (forall p, providers self !! getProvider self = Some p ->
                getCurrentProvider self = Some p)
  /\ (providers self !! getProvider self = None ->
      inherited (getProvider self) = false ->
      getCurrentProvider self = Some web3).
Proof.
  intros self. unfold getCurrentProvider. subst self. cbn [providers].
  rewrite !providers_get_setupProviders, setupProviders_lookup.
  split; [apply setupProviders_dom |].
  repeat case_decide; try congruence; split; try congruence; intros _ ->; reflexivity.
Qed.

(** C7: the registry built at construction is a plain object, and
    [getCurrentProvider] indexes it with the selected name.  For the
    selected name ['constructor'], which is not registered, the lookup
    finds the value inherited from [Object.prototype]: what is returned
    is not a provider, and not the [web3] provider that is registered and
    meant as the default. *)
Theorem getCurrentProvider_inherited_name
    (vm injected web3 : Provider) (isVM : bool) (network : option (jsval * jsval))
    (ctx : option TransactionContext) (engine : TxRunner)
    (accounts : jsval -> bool) (t : Z) :
  let self :=
    mkBlockchain (mkExecutionContext "constructor" isVM network)
      (setupProviders vm injected web3) ctx engine accounts t in
  providers self !! getProvider self = None
  /\ providers_get (providers self) (getProvider self) = Inherited
  /\ providers_get (providers self) "web3" = Own web3
  /\ getCurrentProvider self = None
  /\ getCurrentProvider self <> Some web3.
Proof.
  intros self. unfold getCurrentProvider. subst self.
  cbn [providers getProvider executionContext ec_getProvider].
  rewrite !providers_get_setupProviders, setupProviders_lookup.
  repeat case_decide; try congruence.
  repeat split; try reflexivity. discriminate.
Qed.

(** C10: [createVMAccount] throws whenever the active provider name is
    not ['vm']; when it is ['vm'] the call is delegated to the account
    creation of the registered simulated provider, whose completion is
    returned as it is. *)
Theorem createVMAccount_only_vm (self : Blockchain) (newAccount : jsval) :
  (getProvider self <> "vm" ->
   createVMAccount self newAccount = throw (mkError "Error" createVMAccount_message))
  /\ (getProvider self = "vm" ->
      forall p, providers self !! "vm" = Some p ->
        createVMAccount self newAccount =
          ([CreateVMAccountCall (kind p) newAccount],
           match createVMAccount_reply p newAccount with
           | Normal v => Done v
           | Abrupt e => Threw e
           end)).
Proof.
  unfold createVMAccount. split.
  - intros Hne. apply String.eqb_neq in Hne. now rewrite Hne.
  - intros Heq p Hp. apply String.eqb_eq in Heq. rewrite Heq, Hp. cbn.
    destruct (createVMAccount_reply p newAccount); reflexivity.
Qed.

Lemma createVMAccount_only_vm_witness :
  createVMAccount (Sample.blockchain "web3" false Sample.bare Sample.engine_ok)
    (JObj [("privateKey", JStr "0x01"); ("balance", JStr "100")])
  = throw (mkError "Error" createVMAccount_message)
  /\ createVMAccount (Sample.blockchain "vm" true Sample.bare Sample.engine_ok)
       (JObj [("privateKey", JStr "0x01"); ("balance", JStr "100")])
     = ([CreateVMAccountCall VM (JObj [("privateKey", JStr "0x01"); ("balance", JStr "100")])],
        Done (JObj [("privateKey", JStr "0x01"); ("balance", JStr "100")])).
Proof.
  split.
  - apply (proj1 (createVMAccount_only_vm _ _)). vm_compute. discriminate.
  - apply (proj2 (createVMAccount_only_vm
                    (Sample.blockchain "vm" true Sample.bare Sample.engine_ok) _)
             eq_refl Sample.vm).
    vm_compute. reflexivity.
Defined.

(** ** sendTransaction *)

(** C2: when network detection succeeds and reports the network named
    ['Main'] with id ['1'], the promise of [sendTransaction] is rejected
    with the mainnet error and [rawRun] is not called. *)
Theorem sendTransaction_mainnet_rejected
    (resultToRemixTx : jsval -> completion) (self : Blockchain)
    (tx error network : jsval) :
  ec_detectNetwork (executionContext self) = Some (error, network) ->
  truthy error = false ->
  get network "name" = ret (JStr "Main") ->
  get network "id" = ret (JStr "1") ->
  sendTransaction resultToRemixTx self tx
    = ([DetectNetworkCall], Rejected (mkError "Error" mainnet_message))
  /\ forall tx', ~ In (RawRunCall tx') (fst (sendTransaction resultToRemixTx self tx)).
Proof.
  intros Hnet Herr Hname Hid.
  assert (Hsend : sendTransaction resultToRemixTx self tx
                  = ([DetectNetworkCall], Rejected (mkError "Error" mainnet_message))).
  { unfold sendTransaction, is_mainnet. rewrite Hnet, Herr, Hname. cbn.
    rewrite Hid. reflexivity. }
  split; [exact Hsend |].
  intros tx' Hin. rewrite Hsend in Hin. cbn in Hin.
  destruct Hin as [Hin | []]. discriminate Hin.
Qed.

Lemma sendTransaction_mainnet_rejected_witness :
  sendTransaction Sample.to_remix_tx
    (Sample.blockchain "web3" false Sample.bare Sample.engine_ok)
    (JObj [("to", Sample.account); ("value", JNum 1)])
  = ([DetectNetworkCall], Rejected (mkError "Error" mainnet_message)).
Proof.
  apply (sendTransaction_mainnet_rejected Sample.to_remix_tx
           (Sample.blockchain "web3" false Sample.bare Sample.engine_ok)
           (JObj [("to", Sample.account); ("value", JNum 1)]) JNull Sample.mainnet);
    reflexivity.
Defined.

(** ** Laws of the trace monad *)

Lemma trace_bind {A B} (m : M A) (f : A -> M B) :
  trace (bind m f) =
    trace m ++ match result m with
               | Done a => trace (f a)
               | _ => []
               end.
Proof.
  destruct m as [t [a | e | ]]; cbn.
  - destruct (f a); reflexivity.
  - now rewrite app_nil_r.
  - now rewrite app_nil_r.
Qed.

Lemma result_bind {A B} (m : M A) (f : A -> M B) :
  result (bind m f) =
    match result m with
    | Done a => result (f a)
    | Threw e => Threw e
    | Hung => Hung
    end.
Proof.
  destruct m as [t [a | e | ]]; cbn; try reflexivity.
  destruct (f a); reflexivity.
Qed.

Lemma bind_ret_l {A B} (a : A) (f : A -> M B) : bind (ret a) f = f a.
Proof. unfold bind, ret. destruct (f a). reflexivity. Qed.

Lemma bind_Done_inv {A B} (m : M A) (f : A -> M B) (t : list event) (b : B) :
  bind m f = (t, Done b) ->
  exists t1 a t2, m = (t1, Done a) /\ f a = (t2, Done b) /\ t = t1 ++ t2.
Proof.
  destruct m as [t1 [a | e | ]]; cbn; try discriminate.
  destruct (f a) as [t2 o] eqn:Hf. intros [= <- ->].
  exists t1, a, t2. auto.
Qed.

Lemma trace_get (v : jsval) (k : string) : trace (get v k) = [].
Proof. destruct v as [ | | | | [ | ] | ]; reflexivity. Qed.

Lemma get_Done_inv (v : jsval) (k : string) (t : list event) (x : jsval) :
  get v k = (t, Done x) -> get v k = ret x.
Proof.
  intros H. pose proof (trace_get v k) as Ht. rewrite H in Ht. cbn in Ht.
  now subst t.
Qed.

(** A read of a truthy value never throws. *)
Lemma get_truthy (v : jsval) (k : string) :
  truthy v = true -> exists x, get v k = ret x.
Proof.
  destruct v as [ | | | | [ | ] | ]; cbn; try discriminate; eauto.
Qed.

(** ** Resolution of value, sender and record *)

Lemma trace_try_catch {A} (body : M A) (handler : jsval -> M A) :
  trace (try_catch body handler) =
    trace body ++ match result body with
                  | Threw e => trace (handler e)
                  | _ => []
                  end.
Proof.
  destruct body as [t [a | e | ]]; cbn; rewrite ?app_nil_r; try reflexivity.
  destruct (handler e); reflexivity.
Qed.

Ltac trace_steps :=
  repeat first
    [ rewrite trace_bind
    | rewrite trace_get
    | progress cbn [app trace fst ret throw emit]
    | match goal with
      | |- context [match result ?m with _ => _ end] => destruct (result m)
      | |- context [if ?b then _ else _] => destruct b
      | |- context [match ?o with Some _ => _ | None => _ end] => destruct o
      end ].

Lemma runTx_value_trace (args : jsval) (ctx : TransactionContext) :
  trace (runTx_value args ctx) = [].
Proof. unfold runTx_value. trace_steps; reflexivity. Qed.

Lemma runTx_payLoad_trace (data : jsval) : trace (runTx_payLoad data) = [].
Proof. unfold runTx_payLoad. trace_steps; reflexivity. Qed.

Lemma getAccounts_trace (self : Blockchain) :
  Forall (fun ev => is_GetAccountsCall ev = true) (fst (getAccounts self None)).
Proof.
  unfold getAccounts.
  destruct (getCurrentProvider self) as [p | ]; [| constructor].
  destruct (getAccounts_reply p) as [[error accounts] | ]; cbn; repeat constructor.
Qed.

Lemma await_trace (p : list event * promise) : trace (await p) = fst p.
Proof. destruct p as [t [ | v | e]]; reflexivity. Qed.

Lemma runTx_from_trace (self : Blockchain) (args : jsval) (ctx : TransactionContext) :
  Forall (fun ev => is_GetAccountsCall ev = true) (trace (runTx_from self args ctx)).
Proof.
  unfold runTx_from. rewrite trace_bind, trace_get. cbn [app].
  destruct (result (get args "from")) as [f | e | ]; try constructor.
  destruct (truthy f); [constructor |].
  destruct (getAddress ctx); [constructor |].
  rewrite trace_try_catch, trace_bind, await_trace.
  apply Forall_app. split.
  - apply Forall_app. split; [apply getAccounts_trace |].
    trace_steps; constructor.
  - match goal with |- context [match ?r with _ => _ end] => destruct r end;
      constructor.
Qed.

Lemma runTx_build_trace (self : Blockchain) (args : jsval) :
  Forall (fun ev => is_GetAccountsCall ev = true) (trace (runTx_build self args)).
Proof.
  unfold runTx_build, the_transactionContextAPI.
  destruct (transactionContextAPI self) as [ctx | ]; [| constructor].
  rewrite bind_ret_l, trace_bind, runTx_value_trace. cbn [app].
  destruct (result (runTx_value args ctx)) as [value | e | ]; try constructor.
  rewrite trace_bind. apply Forall_app. split; [apply runTx_from_trace |].
  destruct (result (runTx_from self args ctx)) as [from | e | ]; try constructor.
  trace_steps; rewrite ?runTx_payLoad_trace; trace_steps; constructor.
Qed.

(** What a successfully built record is made of. *)
Lemma runTx_build_inv (self : Blockchain) (args : jsval) (t : list event)
    (tx : Tx) (timestamp : jsval) (payLoad : PayLoad) :
  runTx_build self args = (t, Done (tx, timestamp, payLoad)) ->
  exists ctx data,
    transactionContextAPI self = Some ctx
    /\ runTx_value args ctx = ret (tx_value tx)
    /\ runTx_from self args ctx = (t, Done (tx_from tx))
    /\ tx_gasLimit tx = runTx_gasLimit ctx
    /\ get args "to" = ret (tx_to tx)
    /\ get args "useCall" = ret (tx_useCall tx)
    /\ get args "data" = ret data
    /\ get data "dataHex" = ret (tx_data tx)
    /\ get data "timestamp" = ret (tx_timestamp tx)
    /\ timestamp =
         (if truthy (tx_timestamp tx) then tx_timestamp tx else JNum (now self)).
Proof.
  unfold runTx_build, the_transactionContextAPI. intros H.
  destruct (transactionContextAPI self) as [ctx | ]; [| discriminate].
  rewrite bind_ret_l in H.
  apply bind_Done_inv in H as (t1 & value & t1' & Hvalue & H & ->).
  apply bind_Done_inv in H as (t2 & from & t2' & Hfrom & H & ->).
  apply bind_Done_inv in H as (t3 & to & t3' & Hto & H & ->).
  apply bind_Done_inv in H as (t4 & data & t4' & Hdata & H & ->).
  apply bind_Done_inv in H as (t5 & dataHex & t5' & HdataHex & H & ->).
  apply bind_Done_inv in H as (t6 & useCall & t6' & HuseCall & H & ->).
  apply bind_Done_inv in H as (t7 & ts & t7' & Hts & H & ->).
  apply bind_Done_inv in H as (t8 & pl & t8' & Hpl & H & ->).
  injection H as <- <- <- <-.
  pose proof (runTx_value_trace args ctx) as Hv. rewrite Hvalue in Hv.
  pose proof (runTx_payLoad_trace data) as Hp. rewrite Hpl in Hp.
  cbn in Hv, Hp. subst t1 t8.
  apply get_Done_inv in Hto as Hto', Hdata as Hdata', HdataHex as HdataHex',
      HuseCall as HuseCall', Hts as Hts'.
  rewrite Hto' in Hto. rewrite Hdata' in Hdata. rewrite HdataHex' in HdataHex.
  rewrite HuseCall' in HuseCall. rewrite Hts' in Hts.
  injection Hto as <-. injection Hdata as <-. injection HdataHex as <-.
  injection HuseCall as <-. injection Hts as <-.
  exists ctx, data. cbn. rewrite !app_nil_r.
  repeat split; auto.
Qed.

(** The trace of [runTx]: the resolution, then the announcement and
    the dispatch, then whatever the engine's answers cause. *)
Lemma runTx_trace (checkVMError : jsval -> completion) (self : Blockchain)
    (args : jsval) (cb : list jsval -> M unit) :
  trace (runTx checkVMError self args cb) =
    trace (runTx_build self args)
    ++ match result (runTx_build self args) with
       | Done (tx, timestamp, payLoad) =>
           Trigger_initiatingTransaction timestamp tx payLoad
           :: RawRunCall (Tx_to_js tx)
           :: engine_results (runTx_resultCb checkVMError self tx timestamp payLoad cb)
                (rawRun (txRunner self) (Tx_to_js tx))
       | _ => []
       end.
Proof.
  unfold runTx. rewrite trace_bind.
  destruct (result (runTx_build self args)) as [[[tx timestamp] payLoad] | e | ];
    reflexivity.
Qed.

(** ** Value resolution *)

Lemma runTx_value_explicit (args v : jsval) (ctx : TransactionContext) :
  get args "value" = ret v -> truthy v = true -> runTx_value args ctx = ret v.
Proof.
  intros Hv Ht. unfold runTx_value. rewrite Hv, bind_ret_l, Ht. reflexivity.
Qed.

Lemma runTx_value_useCall (args v u : jsval) (ctx : TransactionContext) :
  get args "value" = ret v -> truthy v = false ->
  get args "useCall" = ret u -> truthy u = true ->
  runTx_value args ctx = ret (JNum 0).
Proof.
  intros Hv Ht Hu Hut. unfold runTx_value.
  rewrite Hv, bind_ret_l, Ht, Hu, bind_ret_l, Hut. reflexivity.
Qed.

(** C3, as amended: for an intent with [useCall] set and no truthy
    explicit [value], the [value] of the normalized record is 0 whatever
    the context API offers; an explicit truthy [value] is kept as it is,
    also when [useCall] is set. *)
Theorem runTx_value_of_call (self : Blockchain) (args u v : jsval)
    (t : list event) (tx : Tx) (timestamp : jsval) (payLoad : PayLoad) :
  get args "useCall" = ret u ->
  truthy u = true ->
  get args "value" = ret v ->
  runTx_build self args = (t, Done (tx, timestamp, payLoad)) ->
  tx_value tx = (if truthy v then v else JNum 0).
Proof.
  intros Hu Hut Hv Hbuild.
  apply runTx_build_inv in Hbuild as (ctx & data & _ & Hvalue & _).
  destruct (truthy v) eqn:Htv.
  - rewrite (runTx_value_explicit args v ctx Hv Htv) in Hvalue.
    now injection Hvalue.
  - rewrite (runTx_value_useCall args v u ctx Hv Htv Hu Hut) in Hvalue.
    now injection Hvalue.
Qed.

(** The unamended reading fails: an intent with [useCall] set and the
    explicit value 5 is normalized to the value 5. *)
Lemma runTx_value_of_call_counterexample :
  ~ (forall (self : Blockchain) (args u : jsval) (t : list event) (tx : Tx)
            (timestamp : jsval) (payLoad : PayLoad),
        get args "useCall" = ret u ->
        truthy u = true ->
        runTx_build self args = (t, Done (tx, timestamp, payLoad)) ->
        tx_value tx = JNum 0).
Proof.
  intros H.
  eassert (E : runTx_build
                 (Sample.blockchain "vm" true Sample.with_value Sample.engine_ok)
                 Sample.call_intent_with_value
               = (_, Done (_, _, _))) by (vm_compute; reflexivity).
  specialize (H _ Sample.call_intent_with_value (JBool true) _ _ _ _
                eq_refl eq_refl E).
  discriminate H.
Qed.

Lemma runTx_value_of_call_witness :
  exists t tx timestamp payLoad,
    runTx_build (Sample.blockchain "vm" true Sample.with_value Sample.engine_ok)
      Sample.call_intent
    = (t, Done (tx, timestamp, payLoad))
    /\ tx_value tx = JNum 0.
Proof.
  eassert (E : runTx_build
                 (Sample.blockchain "vm" true Sample.with_value Sample.engine_ok)
                 Sample.call_intent
               = (_, Done (_, _, _))) by (vm_compute; reflexivity).
  do 4 eexists. split; [exact E |].
  exact (runTx_value_of_call _ Sample.call_intent (JBool true) JUndefined _ _ _ _
           eq_refl eq_refl eq_refl E).
Defined.

(** ** What the result callback can emit *)

Lemma trace_call (c : completion) : trace (call c) = [].
Proof. destruct c; reflexivity. Qed.

Lemma in_callback_eq (m : M unit) :
  in_callback m =
    trace m ++ match result m with
               | Threw e => [UncaughtInCallback e]
               | _ => []
               end.
Proof. destruct m as [t [[] | e | ]]; cbn; now rewrite ?app_nil_r. Qed.

Lemma in_callback_Forall (P : event -> Prop) (m : M unit) :
  Forall P (trace m) -> (forall e, P (UncaughtInCallback e)) ->
  Forall P (in_callback m).
Proof.
  intros Ht He. rewrite in_callback_eq. apply Forall_app. split; [exact Ht |].
  destruct (result m); repeat constructor. apply He.
Qed.

Lemma engine_results_Forall (P : event -> Prop) (handler : jsval -> jsval -> M unit)
    (calls : list engine_call) :
  (forall error result, In (ResultCb error result) calls ->
                        Forall P (in_callback (handler error result))) ->
  Forall P (engine_results handler calls).
Proof.
  unfold engine_results. induction calls as [| c calls IH]; intros H; cbn.
  - constructor.
  - apply Forall_app. split.
    + destruct c; try constructor. apply H. now left.
    + apply IH. intros error result Hin. apply H. now right.
Qed.

Lemma runTx_resultCb_events (checkVMError : jsval -> completion) (self : Blockchain)
    (tx : Tx) (timestamp : jsval) (payLoad : PayLoad) (error result : jsval) :
  Forall (fun ev => from_resultCb ev = true)
    (in_callback
       (runTx_resultCb checkVMError self tx timestamp payLoad caller_cb error result)).
Proof.
  apply in_callback_Forall; [| reflexivity].
  unfold runTx_resultCb, runTx_deliver, caller_cb.
  repeat first [rewrite trace_call | progress trace_steps]; repeat constructor.
Qed.

(** With a reported error the callback only hands the error on. *)
Lemma runTx_resultCb_error (checkVMError : jsval -> completion) (self : Blockchain)
    (tx : Tx) (timestamp : jsval) (payLoad : PayLoad) (cb : list jsval -> M unit)
    (error result : jsval) :
  truthy error = true ->
  runTx_resultCb checkVMError self tx timestamp payLoad cb error result = cb [error].
Proof. intros H. unfold runTx_resultCb. now rewrite H. Qed.

(** ** Sender resolution *)

Lemma runTx_from_explicit (self : Blockchain) (args f : jsval)
    (ctx : TransactionContext) :
  get args "from" = ret f -> truthy f = true -> runTx_from self args ctx = ret f.
Proof.
  intros Hf Ht. unfold runTx_from. rewrite Hf, bind_ret_l, Ht. reflexivity.
Qed.

(** An empty account list, or any list whose first entry is falsy: the
    error thrown for it is caught at once and the sender becomes 0. *)
Lemma runTx_from_no_accounts (self : Blockchain) (args f : jsval)
    (ctx : TransactionContext) (p : Provider) (error accounts a : jsval) :
  get args "from" = ret f -> truthy f = false ->
  getAddress ctx = None ->
  getCurrentProvider self = Some p ->
  getAccounts_reply p = Some (error, accounts) ->
  truthy error = false ->
  get accounts "0" = ret a -> truthy a = false ->
  runTx_from self args ctx = ([GetAccountsCall (kind p)], Done (JNum 0)).
Proof.
  intros Hf Ht Hctx Hp Hreply Herr Ha Hta.
  unfold runTx_from, getAccounts.
  rewrite Hf, bind_ret_l, Ht, Hctx, Hp, Hreply, Herr. cbn.
  rewrite Ha. cbn. rewrite Hta. reflexivity.
Qed.

Lemma not_In_of_Forall (P : event -> bool) (l : list event) (ev : event) :
  Forall (fun x => P x = true) l -> P ev = false -> ~ In ev l.
Proof.
  intros Hall Hev Hin. rewrite List.Forall_forall in Hall.
  apply Hall in Hin. congruence.
Qed.

(** C8: with an explicit (truthy) [from] the sender of the normalized
    record is that very value, and no provider is asked for its accounts
    anywhere in the submission. *)
Theorem runTx_explicit_from (checkVMError : jsval -> completion) (self : Blockchain)
    (args f : jsval) :
  get args "from" = ret f ->
  truthy f = true ->
  (forall ctx, runTx_from self args ctx = ret f)
  /\ (forall k, ~ In (GetAccountsCall k) (trace (runTx checkVMError self args caller_cb)))
  /\ (forall t tx timestamp payLoad,
         runTx_build self args = (t, Done (tx, timestamp, payLoad)) ->
         tx_from tx = f).
Proof.
  intros Hf Ht.
  assert (Hfrom : forall ctx, runTx_from self args ctx = ret f)
    by (intros ctx; now apply runTx_from_explicit).
  split; [exact Hfrom |]. split.
  - intros k. rewrite runTx_trace. intros Hin. apply in_app_or in Hin as [Hin | Hin].
    + revert Hin. unfold runTx_build, the_transactionContextAPI.
      destruct (transactionContextAPI self) as [ctx | ]; [| intros []].
      rewrite bind_ret_l, trace_bind, runTx_value_trace. cbn [app].
      destruct (result (runTx_value args ctx)); [| intros [] | intros []].
      rewrite Hfrom, bind_ret_l.
      trace_steps; rewrite ?runTx_payLoad_trace; trace_steps; intros [].
    + destruct (result (runTx_build self args)) as [[[tx ts] pl] | e | ];
        [| destruct Hin | destruct Hin].
      destruct Hin as [Hin | [Hin | Hin]]; try discriminate Hin.
      revert Hin.
      apply (not_In_of_Forall from_resultCb); [| reflexivity].
      apply engine_results_Forall. intros error result _.
      apply runTx_resultCb_events.
  - intros t tx ts pl Hbuild.
    apply runTx_build_inv in Hbuild as (ctx & data & _ & _ & Hfrom' & _).
    rewrite Hfrom in Hfrom'. now injection Hfrom'.
Qed.

Lemma runTx_explicit_from_witness :
  runTx_from (Sample.blockchain "vm" true Sample.bare Sample.engine_ok)
    Sample.intent_with_from Sample.bare = ret Sample.sender
  /\ forall k,
      ~ In (GetAccountsCall k)
          (trace (runTx Sample.no_vm_error
                    (Sample.blockchain "vm" true Sample.bare Sample.engine_ok)
                    Sample.intent_with_from caller_cb)).
Proof.
  pose proof (runTx_explicit_from Sample.no_vm_error
                (Sample.blockchain "vm" true Sample.bare Sample.engine_ok)
                Sample.intent_with_from Sample.sender eq_refl eq_refl)
    as [Hfrom [Hquiet _]].
  split; [apply Hfrom | exact Hquiet].
Defined.

(** C1: at an intent without [from], a context API without [getAddress]
    and a provider whose account list is empty, [runTx] does not report
    the error it throws for the empty list: the sender becomes 0, the
    transaction is announced and dispatched, and the caller's callback is
    called without an error. *)
Theorem runTx_no_account_proceeds :
  let tx :=
    mkTx JUndefined (JStr "0x6080604052") (JBool false) (JNum 0) (JNum 0)
      (JNum 3000000) JUndefined in
  let payLoad :=
    mkPayLoad JUndefined JUndefined JUndefined JUndefined JUndefined JUndefined in
  let timestamp := JNum 1600000000000 in
  let result := JObj [("result", Sample.receipt)] in
  let address := field Sample.receipt "contractAddress" in
  runTx Sample.no_vm_error
    (Sample.blockchain "injected" false Sample.bare Sample.engine_ok)
    Sample.deployment caller_cb
  = ([GetAccountsCall Injected;
      Trigger_initiatingTransaction timestamp tx payLoad;
      RawRunCall (Tx_to_js tx);
      Trigger_executed "transactionExecuted"
        (mkExecutedArgs JNull (JNum 0) JUndefined (JStr "0x6080604052") (JBool false)
           result timestamp payLoad address);
      Cb [JNull; result; address; Sample.receipt]],
     Done tt).
Proof. vm_compute. reflexivity. Qed.

(** ** Order of the notifications *)

Lemma in_prefix_before {A} (pre rest l1 l2 : list A) (x y : A) :
  pre ++ x :: rest = l1 ++ y :: l2 -> ~ In y pre -> x <> y -> In x l1.
Proof.
  revert l1. induction pre as [| p pre IH]; intros [| a l1] Heq Hpre Hxy; cbn in *.
  - injection Heq as Heq _. contradiction.
  - injection Heq as -> _. now left.
  - injection Heq as -> _. exfalso. apply Hpre. now left.
  - injection Heq as _ Heq. right. apply (IH l1 Heq); tauto.
Qed.

Lemma runTx_build_not_executed (self : Blockchain) (args : jsval) (ev : event) :
  is_GetAccountsCall ev = false -> ~ In ev (trace (runTx_build self args)).
Proof.
  intros Hev. apply (not_In_of_Forall is_GetAccountsCall); [| exact Hev].
  apply runTx_build_trace.
Qed.

(** C9: in the trace of one submission every [callExecuted] /
    [transactionExecuted] notification comes after the
    [initiatingTransaction] notification, and when every answer of the
    engine to the dispatch carries an error (a cancellation in a
    confirmation hook is reported that way), or the engine never answers,
    no executed notification is emitted at all. *)
Theorem runTx_notification_order (checkVMError : jsval -> completion)
    (self : Blockchain) (args : jsval) :
  let tr := trace (runTx checkVMError self args caller_cb) in
  (forall l1 eventName a l2,
      tr = l1 ++ Trigger_executed eventName a :: l2 ->
      exists timestamp tx payLoad,
        In (Trigger_initiatingTransaction timestamp tx payLoad) l1)
  /\ ((forall tx, In (RawRunCall tx) tr ->
         forall error result,
           In (ResultCb error result) (rawRun (txRunner self) tx) ->
           truthy error = true) ->
      forall eventName a, ~ In (Trigger_executed eventName a) tr).
Proof.
  intros tr. subst tr. rewrite runTx_trace.
  pose proof (fun ev => runTx_build_not_executed self args ev) as Hpre.
  destruct (result (runTx_build self args)) as [[[tx ts] pl] | e | ]; split.
  - intros l1 eventName a l2 Heq. exists ts, tx, pl.
    apply (in_prefix_before _ _ _ _ _ _ Heq); [now apply Hpre | discriminate].
  - intros Herr eventName a Hin. apply in_app_or in Hin as [Hin | Hin].
    { revert Hin. now apply Hpre. }
    destruct Hin as [Hin | [Hin | Hin]]; try discriminate Hin.
    assert (Hall : Forall (fun ev => is_executed ev = false)
                     (engine_results
                        (runTx_resultCb checkVMError self tx ts pl caller_cb)
                        (rawRun (txRunner self) (Tx_to_js tx)))).
    { apply engine_results_Forall. intros error result Hcall.
      rewrite (runTx_resultCb_error checkVMError self tx ts pl caller_cb error result).
      - repeat constructor.
      - refine (Herr (Tx_to_js tx) _ error result Hcall).
        apply in_or_app. right. right. now left. }
    rewrite List.Forall_forall in Hall. apply Hall in Hin. discriminate Hin.
  - intros l1 eventName a l2 Heq. exfalso.
    apply (Hpre (Trigger_executed eventName a) eq_refl).
    rewrite app_nil_r in Heq. rewrite Heq. apply in_or_app. right. now left.
  - intros _ eventName a Hin. rewrite app_nil_r in Hin. revert Hin. now apply Hpre.
  - intros l1 eventName a l2 Heq. exfalso.
    apply (Hpre (Trigger_executed eventName a) eq_refl).
    rewrite app_nil_r in Heq. rewrite Heq. apply in_or_app. right. now left.
  - intros _ eventName a Hin. rewrite app_nil_r in Hin. revert Hin. now apply Hpre.
Qed.

Lemma runTx_notification_order_witness :
  Forall (fun ev => is_executed ev = false)
    (trace (runTx Sample.no_vm_error
              (Sample.blockchain "vm" true Sample.bare Sample.engine_cancelled)
              Sample.intent_with_from caller_cb)).
Proof.
  apply List.Forall_forall. intros ev Hin.
  destruct ev; try reflexivity. exfalso. revert Hin.
  apply (proj2 (runTx_notification_order Sample.no_vm_error
                  (Sample.blockchain "vm" true Sample.bare Sample.engine_cancelled)
                  Sample.intent_with_from)).
  intros tx _ error result [Hin | [Hin | []]]; [discriminate Hin |].
  injection Hin as <- _. reflexivity.
Defined.

(** ** Classification of the raw result *)

Lemma get_field_truthy (v : jsval) (k : string) :
  truthy v = true -> get v k = ret (field v k).
Proof.
  intros Hv. destruct (get_truthy v k Hv) as [x Hx].
  unfold field. rewrite Hx. reflexivity.
Qed.

(** Only an object has a truthy [result]. *)
Lemma truthy_of_result (v r : jsval) :
  get v "result" = ret r -> truthy r = true -> truthy v = true.
Proof.
  destruct v as [ | | b | n | [ | c s] | fs]; cbn; intros H Hr;
    try discriminate H; try reflexivity; injection H as <-; discriminate Hr.
Qed.

Lemma bind_emit {B} (ev : event) (f : unit -> M B) :
  bind (emit ev) f = prepend [ev] (f tt).
Proof. unfold bind, emit, prepend. destruct (f tt). reflexivity. Qed.

Lemma prepend_prepend {A} (t1 t2 : list event) (m : M A) :
  prepend t1 (prepend t2 m) = prepend (t1 ++ t2) m.
Proof. unfold prepend. cbn. now rewrite app_assoc. Qed.

(** Lines 515-523 for a result that carries a receipt. *)
Lemma runTx_deliver_receipt (self : Blockchain) (txResult r : jsval)
    (cb : list jsval -> M unit) :
  get txResult "result" = ret r ->
  truthy r = true ->
  runTx_deliver (isVM self) txResult cb =
    cb [JNull; txResult; field r (address_field self); returnValue_of self r].
Proof.
  intros Hr Htr. pose proof (truthy_of_result txResult r Hr Htr) as Htres.
  unfold runTx_deliver, address_field, returnValue_of.
  rewrite Htres, Hr, bind_ret_l, Htr.
  rewrite (get_field_truthy r _ Htr), bind_ret_l.
  rewrite (get_field_truthy r "execResult" Htr), bind_ret_l.
  destruct (truthy (field r "execResult") && isVM self) eqn:Hex.
  - apply andb_prop in Hex as [Hex _].
    rewrite (get_field_truthy _ "returnValue" Hex), !bind_ret_l. reflexivity.
  - rewrite !bind_ret_l. reflexivity.
Qed.

(** The successful path of the result callback, for any callback [cb]:
    the notification, the VM check on the simulated backend only, then
    [cb (null, result, address, returnValue)]. *)
Lemma runTx_resultCb_success (checkVMError : jsval -> completion) (self : Blockchain)
    (tx : Tx) (timestamp : jsval) (payLoad : PayLoad) (cb : list jsval -> M unit)
    (error result r : jsval) :
  truthy error = false ->
  get result "result" = ret r ->
  truthy r = true ->
  (isVM self = true ->
   exists vmError e,
     checkVMError result = Normal vmError
     /\ get vmError "error" = ret e /\ truthy e = false) ->
  runTx_resultCb checkVMError self tx timestamp payLoad cb error result =
    prepend
      (Trigger_executed (executed_name tx)
         (executed_args tx timestamp payLoad result (field r (address_field self)))
       :: (if isVM self then [CheckVMErrorCall result] else []))
      (cb [JNull; result; field r (address_field self); returnValue_of self r]).
Proof.
  intros Herr Hr Htr Hvm.
  pose proof (runTx_deliver_receipt self result r cb Hr Htr) as Hdeliver.
  unfold runTx_resultCb. rewrite Herr. rewrite Hr at 1. rewrite bind_ret_l.
  fold (address_field self).
  rewrite (get_field_truthy r _ Htr), bind_ret_l, bind_emit.
  fold (executed_name tx).
  fold (executed_args tx timestamp payLoad result (field r (address_field self))).
  destruct (isVM self) eqn:HisVM.
  - destruct (Hvm eq_refl) as (vmError & e & Hchk & He & Hte).
    rewrite bind_emit, Hchk. cbn [call].
    rewrite bind_ret_l, He, bind_ret_l, Hte, Hdeliver, prepend_prepend.
    reflexivity.
  - rewrite Hdeliver. reflexivity.
Qed.

(** C4: on the simulated backend a result for which [checkVMError]
    reports an error makes the result callback hand the reported message
    to the caller; on any other backend [checkVMError] is not called and
    the outcome does not depend on it. *)
Theorem runTx_resultCb_vm_error (checkVMError : jsval -> completion)
    (self : Blockchain) (tx : Tx) (timestamp : jsval) (payLoad : PayLoad)
    (error result : jsval) :
  (isVM self = true ->
   forall r a vmError e message,
     truthy error = false ->
     get result "result" = ret r ->
     get r "createdAddress" = ret a ->
     checkVMError result = Normal vmError ->
     get vmError "error" = ret e ->
     truthy e = true ->
     get vmError "message" = ret message ->
     runTx_resultCb checkVMError self tx timestamp payLoad caller_cb error result
     = ([Trigger_executed (executed_name tx)
           (executed_args tx timestamp payLoad result a);
         CheckVMErrorCall result;
         Cb [message]], Done tt))
  /\ (isVM self = false ->
      (forall x,
          ~ In (CheckVMErrorCall x)
              (trace (runTx_resultCb checkVMError self tx timestamp payLoad
                        caller_cb error result)))
      /\ forall checkVMError',
          runTx_resultCb checkVMError' self tx timestamp payLoad caller_cb error result
          = runTx_resultCb checkVMError self tx timestamp payLoad caller_cb error result).
Proof.
  split.
  - intros HisVM r a vmError e message Herr Hr Ha Hchk He Hte Hmsg.
    unfold runTx_resultCb, executed_name, executed_args.
    rewrite Herr, Hr, bind_ret_l, HisVM, Ha, bind_ret_l.
    cbn -[get]. rewrite Hchk. cbn -[get]. rewrite He. cbn -[get].
    rewrite Hte, Hmsg. reflexivity.
  - intros HisVM. split.
    + intros x. unfold runTx_resultCb. rewrite HisVM.
      apply (not_In_of_Forall (fun ev => negb (is_CheckVMErrorCall ev)));
        [| reflexivity].
      unfold runTx_deliver, caller_cb. trace_steps; repeat constructor.
    + intros checkVMError'. unfold runTx_resultCb. rewrite HisVM. reflexivity.
Qed.

Lemma runTx_resultCb_vm_error_witness :
  runTx_resultCb Sample.vm_reverted
    (Sample.blockchain "vm" true Sample.bare Sample.engine_ok)
    Sample.deployment_tx (JNum 1600000000000) Sample.no_payLoad caller_cb
    JNull (JObj [("result", Sample.receipt)])
  = ([Trigger_executed "transactionExecuted"
        (executed_args Sample.deployment_tx (JNum 1600000000000) Sample.no_payLoad
           (JObj [("result", Sample.receipt)])
           (field Sample.receipt "createdAddress"));
      CheckVMErrorCall (JObj [("result", Sample.receipt)]);
      Cb [JStr "VM error: revert."]], Done tt).
Proof.
  apply (proj1 (runTx_resultCb_vm_error Sample.vm_reverted
                  (Sample.blockchain "vm" true Sample.bare Sample.engine_ok)
                  Sample.deployment_tx (JNum 1600000000000) Sample.no_payLoad
                  JNull (JObj [("result", Sample.receipt)]))
           eq_refl Sample.receipt (field Sample.receipt "createdAddress")
           (JObj [("error", JBool true); ("message", JStr "VM error: revert.")])
           (JBool true) (JStr "VM error: revert."));
    reflexivity.
Defined.

(** C5: for a result that carries a receipt and raises no error, the
    address announced and handed to the callback is read from
    [createdAddress] when the backend is the simulated one and from
    [contractAddress] otherwise; the choice looks at the backend only,
    not at which of the two fields the receipt has. *)
Theorem runTx_address_by_backend (checkVMError : jsval -> completion)
    (self : Blockchain) (tx : Tx) (timestamp : jsval) (payLoad : PayLoad)
    (error result r : jsval) :
  truthy error = false ->
  get result "result" = ret r ->
  truthy r = true ->
  (isVM self = true ->
   exists vmError e,
     checkVMError result = Normal vmError
     /\ get vmError "error" = ret e /\ truthy e = false) ->
  let address := field r (if isVM self then "createdAddress" else "contractAddress") in
  runTx_resultCb checkVMError self tx timestamp payLoad caller_cb error result
  = (Trigger_executed (executed_name tx)
       (executed_args tx timestamp payLoad result address)
     :: (if isVM self then [CheckVMErrorCall result] else [])
     ++ [Cb [JNull; result; address; returnValue_of self r]], Done tt).
Proof.
  intros Herr Hr Htr Hvm address. subst address.
  rewrite (runTx_resultCb_success checkVMError self tx timestamp payLoad caller_cb
             error result r Herr Hr Htr Hvm).
  reflexivity.
Qed.

Lemma runTx_address_by_backend_witness :
  In (Cb [JNull; JObj [("result", Sample.receipt)];
          JStr "0xd9145CCE52D386f254917e481eB44e9943F39138"; Sample.receipt])
     (trace (runTx_resultCb Sample.no_vm_error
               (Sample.blockchain "vm" true Sample.bare Sample.engine_ok)
               Sample.deployment_tx (JNum 1600000000000) Sample.no_payLoad caller_cb
               JNull (JObj [("result", Sample.receipt)])))
  /\ In (Cb [JNull; JObj [("result", Sample.receipt)];
             JStr "0x0fC5025C764cE34df352757e82f7B5c4Df39A836"; Sample.receipt])
        (trace (runTx_resultCb Sample.no_vm_error
                  (Sample.blockchain "web3" false Sample.bare Sample.engine_ok)
                  Sample.deployment_tx (JNum 1600000000000) Sample.no_payLoad caller_cb
                  JNull (JObj [("result", Sample.receipt)]))).
Proof.
  split.
  - rewrite (runTx_address_by_backend Sample.no_vm_error
               (Sample.blockchain "vm" true Sample.bare Sample.engine_ok)
               Sample.deployment_tx (JNum 1600000000000) Sample.no_payLoad
               JNull (JObj [("result", Sample.receipt)]) Sample.receipt
               eq_refl eq_refl eq_refl
               (fun _ => ex_intro _ _ (ex_intro _ (JBool false)
                                         (conj eq_refl (conj eq_refl eq_refl))))).
    right. right. left. reflexivity.
  - rewrite (runTx_address_by_backend Sample.no_vm_error
               (Sample.blockchain "web3" false Sample.bare Sample.engine_ok)
               Sample.deployment_tx (JNum 1600000000000) Sample.no_payLoad
               JNull (JObj [("result", Sample.receipt)]) Sample.receipt
               eq_refl eq_refl eq_refl
               (fun H => False_ind _ (Bool.diff_false_true H))).
    right. left. reflexivity.
Defined.

(** ** Contract creation *)

Lemma engine_results_single (handler : jsval -> jsval -> M unit)
    (calls : list engine_call) (error result : jsval) :
  result_calls calls = [(error, result)] ->
  engine_results handler calls = in_callback (handler error result).
Proof.
  unfold engine_results. induction calls as [| c calls IH]; [discriminate |].
  destruct c; cbn; try exact IH.
  intros [= -> -> Hrest]. rewrite <- (app_nil_r (in_callback _)) at 2. f_equal.
  clear IH. induction calls as [| c calls IH]; [reflexivity |].
  destruct c; cbn in *; try discriminate; auto.
Qed.

Lemma truthy_of_status (r : jsval) :
  get r "status" = ret (JStr "0x0") -> truthy r = true.
Proof.
  destruct r as [ | | b | n | [ | c s] | fs]; intros H; try reflexivity;
    vm_compute in H; discriminate H.
Qed.

(** The callback of [createContract] on a result whose status is ['0x0']. *)
Lemma createContract_cb_zero_status (ToString : jsval -> string) (c : Contract)
    (error txResult address r : jsval) (rest : list jsval) :
  truthy error = false ->
  get txResult "result" = ret r ->
  get r "status" = ret (JStr "0x0") ->
  createContract_cb ToString c (error :: txResult :: address :: rest)
  = ([FinalCbError (creation_errored c "transaction execution failed")], Done tt).
Proof.
  intros Herr Hr Hstatus. unfold createContract_cb. cbn [nth].
  rewrite Herr, Hr, bind_ret_l, Hstatus, bind_ret_l. reflexivity.
Qed.

(** C6: a creation whose dispatch answers once, without an error, with a
    receipt of status ['0x0'] ends with the final callback receiving
    ['creation of X errored: transaction execution failed'] as its only
    argument; the final callback is never called with an address. *)
Theorem createContract_zero_status (checkVMError : jsval -> completion)
    (ToString : jsval -> string) (self : Blockchain) (c : Contract)
    (data args : jsval) (t : list event) (tx : Tx) (timestamp : jsval)
    (payLoad : PayLoad) (error result r : jsval) :
  createContract_args c data = ret args ->
  runTx_build self args = (t, Done (tx, timestamp, payLoad)) ->
  result_calls (rawRun (txRunner self) (Tx_to_js tx)) = [(error, result)] ->
  truthy error = false ->
  get result "result" = ret r ->
  get r "status" = ret (JStr "0x0") ->
  (isVM self = true ->
   exists vmError e,
     checkVMError result = Normal vmError
     /\ get vmError "error" = ret e /\ truthy e = false) ->
  createContract checkVMError ToString self c data
  = (t ++ Trigger_initiatingTransaction timestamp tx payLoad
       :: RawRunCall (Tx_to_js tx)
       :: Trigger_executed (executed_name tx)
            (executed_args tx timestamp payLoad result (field r (address_field self)))
       :: (if isVM self then [CheckVMErrorCall result] else [])
       ++ [FinalCbError (creation_errored c "transaction execution failed")],
     Done tt)
  /\ forall c' address,
      ~ In (FinalCbOk c' address)
          (trace (createContract checkVMError ToString self c data)).
Proof.
  intros Hargs Hbuild Hcalls Herr Hr Hstatus Hvm.
  pose proof (truthy_of_status r Hstatus) as Htr.
  match goal with |- ?lhs = ?rhs /\ _ => assert (Heq : lhs = rhs) end.
  { unfold createContract, runTx.
    rewrite Hargs, bind_ret_l, Hbuild. cbn [bind].
    rewrite !bind_emit.
    rewrite (engine_results_single _ _ error result Hcalls).
    rewrite (runTx_resultCb_success checkVMError self tx timestamp payLoad _
               error result r Herr Hr Htr Hvm).
    rewrite (createContract_cb_zero_status ToString c JNull result _ r _
               eq_refl Hr Hstatus).
    unfold prepend. cbn. reflexivity. }
  split; [exact Heq |].
  intros c' address. rewrite Heq. cbn [trace fst]. intros Hin.
  apply in_app_or in Hin as [Hin | Hin].
  - revert Hin. apply (not_In_of_Forall is_GetAccountsCall); [| reflexivity].
    pose proof (runTx_build_trace self args) as Hall. now rewrite Hbuild in Hall.
  - destruct (isVM self); cbn in Hin;
      repeat (destruct Hin as [Hin | Hin]; [discriminate Hin |]); destruct Hin.
Qed.

Lemma createContract_zero_status_witness :
  In (FinalCbError "creation of Storage errored: transaction execution failed")
     (trace (createContract Sample.no_vm_error Sample.to_string
               (Sample.blockchain "vm" true Sample.bare Sample.engine_ok)
               Sample.storage Sample.bytecode))
  /\ forall c' address,
      ~ In (FinalCbOk c' address)
          (trace (createContract Sample.no_vm_error Sample.to_string
                    (Sample.blockchain "vm" true Sample.bare Sample.engine_ok)
                    Sample.storage Sample.bytecode)).
Proof.
  assert (Ha : createContract_args Sample.storage Sample.bytecode
               = ret Sample.creation_args) by reflexivity.
  eassert (E : runTx_build (Sample.blockchain "vm" true Sample.bare Sample.engine_ok)
                 Sample.creation_args
               = (_, Done (_, _, _))) by (vm_compute; reflexivity).
  destruct (createContract_zero_status Sample.no_vm_error Sample.to_string
              (Sample.blockchain "vm" true Sample.bare Sample.engine_ok)
              Sample.storage Sample.bytecode Sample.creation_args _ _ _ _
              JNull (JObj [("result", Sample.receipt)]) Sample.receipt
              Ha E eq_refl eq_refl eq_refl eq_refl
              (fun _ => ex_intro _ _ (ex_intro _ (JBool false)
                                        (conj eq_refl (conj eq_refl eq_refl)))))
    as [Heq Hnone].
  split; [| exact Hnone].
  rewrite Heq. vm_compute. auto 10.
Defined.

(** ** The pipeline on sample inputs *)

(** A deployment on the simulated backend: the first account is the
    sender, the address comes from [createdAddress]. *)
Example runTx_vm_deployment :
  trace (runTx Sample.no_vm_error
           (Sample.blockchain "vm" true Sample.bare Sample.engine_ok)
           Sample.deployment caller_cb)
  = let tx :=
      mkTx JUndefined (JStr "0x6080604052") (JBool false) Sample.account (JNum 0)
        (JNum 3000000) JUndefined in
    let result := JObj [("result", Sample.receipt)] in
    let address := field Sample.receipt "createdAddress" in
    [GetAccountsCall VM;
     Trigger_initiatingTransaction (JNum 1600000000000) tx Sample.no_payLoad;
     RawRunCall (Tx_to_js tx);
     Trigger_executed "transactionExecuted"
       (executed_args tx (JNum 1600000000000) Sample.no_payLoad result address);
     CheckVMErrorCall result;
     Cb [JNull; result; address; Sample.receipt]].
Proof. vm_compute. reflexivity. Qed.

(** A cancelled call: announced, dispatched, and only the error reaches
    the caller. *)
Example runTx_cancelled :
  trace (runTx Sample.no_vm_error
           (Sample.blockchain "vm" true Sample.bare Sample.engine_cancelled)
           Sample.intent_with_from caller_cb)
  = let tx :=
      mkTx Sample.account (JStr "0x6080604052") (JBool false) Sample.sender (JNum 0)
        (JNum 3000000) JUndefined in
    [Trigger_initiatingTransaction (JNum 1600000000000) tx Sample.no_payLoad;
     RawRunCall (Tx_to_js tx);
     Cb [JStr "Transaction canceled by user."]].
Proof. vm_compute. reflexivity. Qed.

(** An intent without [data] makes the async function reject before
    anything is announced. *)
Example runTx_without_data :
  runTx Sample.no_vm_error
    (Sample.blockchain "vm" true Sample.bare Sample.engine_ok)
    (JObj [("useCall", JBool false)]) caller_cb
  = ([GetAccountsCall VM], Threw (TypeError_read "dataHex")).
Proof. vm_compute. reflexivity. Qed.

(** Off mainnet [sendTransaction] dispatches and resolves with the
    converted result. *)
Example sendTransaction_testnet :
  sendTransaction Sample.to_remix_tx
    (mkBlockchain
       (mkExecutionContext "web3" false
          (Some (JNull, JObj [("id", JStr "5"); ("name", JStr "Goerli")])))
       (setupProviders Sample.vm Sample.injected Sample.web3)
       (Some Sample.bare) Sample.engine_ok (fun _ => true) 1600000000000)
    (JObj [("to", Sample.account)])
  = ([DetectNetworkCall; RawRunCall (JObj [("to", Sample.account)])],
     Fulfilled (JObj [("result", Sample.receipt)])).
Proof. vm_compute. reflexivity. Qed.

(** ** Classification of the active backend *)

(** X1: for the registry built at construction and a selected name
    outside [Object.prototype], the provider the registry hands out
    agrees with the classification methods: the web3 provider whenever
    [isWeb3Provider] holds (also for a name that is not registered), the
    injected one whenever [isInjectedWeb3] holds, the simulated one
    otherwise.  A name inherited from [Object.prototype] counts as a web3
    provider for [isWeb3Provider], but what the registry returns for it
    is not a provider.  Personal mode can only be on when the name is
    exactly ['web3']. *)
Theorem provider_classification
    (ec : ExecutionContext) (vm injected web3 : Provider)
    (ctx : option TransactionContext) (engine : TxRunner)
    (accounts : jsval -> bool) (t : Z) (config_get : string -> jsval) :
  let self := mkBlockchain ec (setupProviders vm injected web3) ctx engine accounts t in
  (isWeb3Provider self = true -> inherited (getProvider self) = false ->
   getCurrentProvider self = Some web3)
  /\ (inherited (getProvider self) = true ->
      isWeb3Provider self = true /\ getCurrentProvider self = None)
  /\ (isInjectedWeb3 self = true -> getCurrentProvider self = Some injected)
  /\ (isWeb3Provider self = false -> isInjectedWeb3 self = false ->
      getCurrentProvider self = Some vm)
  /\ (truthy (personalMode config_get self) = true ->
      getProvider self = "web3" /\ isWeb3Provider self = true
      /\ getCurrentProvider self = Some web3).
Proof.
  intros self.
  unfold isWeb3Provider, isInjectedWeb3, personalMode, getCurrentProvider.
  subst self. cbn [providers]. rewrite !providers_get_setupProviders.
  set (provider := getProvider _). clearbody provider.
  destruct (String.eqb_spec provider "vm") as [Hvm | Hvm];
    destruct (String.eqb_spec provider "injected") as [Hinj | Hinj];
    destruct (String.eqb_spec provider "web3") as [Hweb3 | Hweb3];
    try congruence; subst;
    destruct (inherited _) eqn:Hinh; try (vm_compute in Hinh; discriminate Hinh);
    repeat case_decide; try congruence; cbn;
    repeat split; try congruence; try discriminate; intros; congruence.
Qed.

Lemma provider_classification_witness :
  getCurrentProvider
    (Sample.blockchain "Hardhat Provider" false Sample.bare Sample.engine_ok)
  = Some Sample.web3
  /\ getCurrentProvider
       (Sample.blockchain "toString" false Sample.bare Sample.engine_ok)
     = None.
Proof.
  split.
  - apply (proj1 (provider_classification (Sample.context "Hardhat Provider" false)
             Sample.vm Sample.injected Sample.web3 (Some Sample.bare) Sample.engine_ok
             (fun _ => true) 1600000000000 (fun _ => JBool true)));
      reflexivity.
  - apply (proj1 (proj2 (provider_classification (Sample.context "toString" false)
             Sample.vm Sample.injected Sample.web3 (Some Sample.bare) Sample.engine_ok
             (fun _ => true) 1600000000000 (fun _ => JBool true)))).
    reflexivity.
Defined.

(** ** updateNetwork *)

(** X2: [updateNetwork] hands on either the detection error alone or
    [null] and a fresh object holding exactly the [id] and the [name] of
    the detected network, also when no network object is given at all;
    a [null] network makes the destructuring throw, so that the callback
    is not called even when an error was reported. *)
Theorem updateNetwork_result (self : Blockchain) (err network : jsval) :
  ec_detectNetwork (executionContext self) = Some (err, network) ->
  (network <> JNull ->
   updateNetwork self caller_cb =
     [DetectNetworkCall;
      Cb (if truthy err then [err]
          else [JNull; JObj [("id", field network "id");
                             ("name", field network "name")]])])
  /\ (network = JNull -> forall args, ~ In (Cb args) (updateNetwork self caller_cb)).
Proof.
  intros Hnet. unfold updateNetwork. rewrite Hnet. split.
  - intros Hnull.
    destruct network as [ | | b | n | [ | c s] | fs]; try congruence;
      destruct (truthy err); reflexivity.
  - intros -> args [Hin | [Hin | []]]; discriminate Hin.
Qed.

Lemma updateNetwork_result_witness :
  updateNetwork
    (More.blockchain_on More.goerli "web3" false Sample.bare Sample.engine_ok)
    caller_cb
  = [DetectNetworkCall;
     Cb [JNull; JObj [("id", JStr "5"); ("name", JStr "Goerli")]]].
Proof.
  apply (updateNetwork_result
           (More.blockchain_on More.goerli "web3" false Sample.bare Sample.engine_ok)
           JNull More.goerli eq_refl).
  discriminate.
Defined.

(** ** More on sendTransaction *)

Lemma sendTransaction_step_settled (resultToRemixTx : jsval -> completion)
    (calls : list engine_call) (p : promise) :
  p <> Pending ->
  fold_left (sendTransaction_step resultToRemixTx) calls p = p.
Proof.
  revert p. induction calls as [| c calls IH]; intros p Hp; [reflexivity |].
  cbn [fold_left].
  assert (Hstep : sendTransaction_step resultToRemixTx p c = p).
  { destruct p; [congruence | |];
      destruct c; cbn; repeat (destruct (truthy _) || destruct (resultToRemixTx _));
      reflexivity. }
  rewrite Hstep. now apply IH.
Qed.

Lemma sendTransaction_step_quiet (resultToRemixTx : jsval -> completion)
    (pre : list engine_call) :
  forallb leaves_pending pre = true ->
  fold_left (sendTransaction_step resultToRemixTx) pre Pending = Pending.
Proof.
  induction pre as [| c pre IH]; [reflexivity |]. cbn [forallb fold_left].
  intros H. apply andb_prop in H as [Hc Hpre].
  assert (Hstep : sendTransaction_step resultToRemixTx Pending c = Pending).
  { destruct c; cbn in *; try reflexivity; try discriminate.
    now destruct (truthy error). }
  rewrite Hstep. now apply IH.
Qed.

(** X3: [sendTransaction] asks the engine at most once, with the
    transaction exactly as the caller gave it, and only after a
    successful detection of a network that is not ([Main], ['1']);
    it never announces, notifies or calls back through the pipeline. *)
Theorem sendTransaction_dispatch (resultToRemixTx : jsval -> completion)
    (self : Blockchain) (tx : jsval) :
  let tr := fst (sendTransaction resultToRemixTx self tx) in
  Forall (fun ev => is_initiating ev || is_executed ev || is_Cb ev || is_FinalCb ev
                    = false) tr
  /\ length (List.filter is_RawRunCall tr) <= 1
  /\ forall tx',
      In (RawRunCall tx') tr ->
      tx' = tx
      /\ exists error network,
          ec_detectNetwork (executionContext self) = Some (error, network)
          /\ truthy error = false
          /\ is_mainnet network = ret false.
Proof.
  intros tr. subst tr. unfold sendTransaction.
  destruct (ec_detectNetwork (executionContext self)) as [[error network] | ] eqn:Hnet.
  2: { cbn. split; [repeat constructor | split; [lia |]].
       intros tx' [Hin | []]. discriminate Hin. }
  destruct (truthy error) eqn:Herr.
  { cbn. split; [repeat constructor | split; [lia |]].
    intros tx' [Hin | []]. discriminate Hin. }
  destruct (is_mainnet network) as [tm [[] | e | ]] eqn:Hmain; cbn.
  - split; [repeat constructor | split; [cbn; lia |]].
    intros tx' [Hin | []]. discriminate Hin.
  - split; [repeat constructor | split; [cbn; lia |]].
    intros tx' [Hin | [Hin | []]]; [discriminate Hin |].
    injection Hin as <-. split; [reflexivity |].
    exists error, network. repeat split; try assumption.
    assert (Htm : trace (is_mainnet network) = []).
    { unfold is_mainnet. trace_steps; reflexivity. }
    rewrite Hmain in Htm. cbn in Htm. now subst tm.
  - split; [repeat constructor | split; [cbn; lia |]].
    intros tx' [Hin | [Hin | []]]; discriminate Hin.
  - split; [repeat constructor | split; [cbn; lia |]].
    intros tx' [Hin | []]. discriminate Hin.
Qed.

Lemma sendTransaction_dispatch_witness :
  List.filter is_RawRunCall
    (fst (sendTransaction Sample.to_remix_tx
            (More.blockchain_on More.main_numeric "web3" false Sample.bare
               Sample.engine_ok)
            (JObj [("to", Sample.account)])))
  = [RawRunCall (JObj [("to", Sample.account)])]
  /\ length
       (List.filter is_RawRunCall
          (fst (sendTransaction Sample.to_remix_tx
                  (More.blockchain_on More.main_numeric "web3" false Sample.bare
                     Sample.engine_ok)
                  (JObj [("to", Sample.account)])))) <= 1.
Proof.
  split; [reflexivity |].
  apply (sendTransaction_dispatch Sample.to_remix_tx
           (More.blockchain_on More.main_numeric "web3" false Sample.bare
              Sample.engine_ok)
           (JObj [("to", Sample.account)])).
Defined.

(** X4: once the network check has passed, the promise of
    [sendTransaction] is decided by the first call of the engine that
    carries an estimation error or a result; whatever the engine reports
    afterwards does not change it. *)
Theorem sendTransaction_first_settlement (resultToRemixTx : jsval -> completion)
    (self : Blockchain) (tx error network : jsval)
    (pre rest : list engine_call) (c : engine_call) :
  ec_detectNetwork (executionContext self) = Some (error, network) ->
  truthy error = false ->
  is_mainnet network = ret false ->
  rawRun (txRunner self) tx = pre ++ c :: rest ->
  forallb leaves_pending pre = true ->
  leaves_pending c = false ->
  snd (sendTransaction resultToRemixTx self tx) = settlement resultToRemixTx c
  /\ settlement resultToRemixTx c <> Pending.
Proof.
  intros Hnet Herr Hmain Hcalls Hpre Hc.
  assert (Hsettled : settlement resultToRemixTx c <> Pending).
  { unfold settlement. destruct c; cbn in *; try discriminate.
    - destruct (truthy error0); [discriminate | discriminate Hc].
    - destruct (truthy error0); [discriminate |].
      destruct (resultToRemixTx result0); discriminate. }
  split; [| exact Hsettled].
  unfold sendTransaction. rewrite Hnet, Herr, Hmain. cbn [snd].
  rewrite Hcalls, fold_left_app. cbn [fold_left].
  rewrite (sendTransaction_step_quiet _ pre Hpre).
  now apply sendTransaction_step_settled.
Qed.

Lemma sendTransaction_first_settlement_witness :
  snd (sendTransaction Sample.to_remix_tx
         (More.blockchain_on More.main_numeric "web3" false Sample.bare
            More.engine_estimation_failed)
         (JObj [("to", Sample.account)]))
  = Rejected (JStr "gas estimation failed").
Proof.
  apply (sendTransaction_first_settlement Sample.to_remix_tx
           (More.blockchain_on More.main_numeric "web3" false Sample.bare
              More.engine_estimation_failed)
           (JObj [("to", Sample.account)]) JNull More.main_numeric
           [ConfirmationCb JNull JNull (JNum 21000)]
           [ResultCb JNull (JObj [("result", Sample.receipt)])]
           (ContinueCb (JStr "gas estimation failed")));
    reflexivity.
Defined.

(** ** More on the resolution of the sender *)

(** A sender found without asking a provider. *)
Lemma runTx_quiet_sender (checkVMError : jsval -> completion) (self : Blockchain)
    (args x : jsval) (ctx : TransactionContext) :
  transactionContextAPI self = Some ctx ->
  runTx_from self args ctx = ret x ->
  (forall k, ~ In (GetAccountsCall k) (trace (runTx checkVMError self args caller_cb)))
  /\ (forall t tx timestamp payLoad,
         runTx_build self args = (t, Done (tx, timestamp, payLoad)) ->
         tx_from tx = x).
Proof.
  intros Hctx Hfrom. split.
  - intros k. rewrite runTx_trace. intros Hin. apply in_app_or in Hin as [Hin | Hin].
    + revert Hin. unfold runTx_build, the_transactionContextAPI. rewrite Hctx.
      rewrite bind_ret_l, trace_bind, runTx_value_trace. cbn [app].
      destruct (result (runTx_value args ctx)); [| intros [] | intros []].
      rewrite Hfrom, bind_ret_l.
      trace_steps; rewrite ?runTx_payLoad_trace; trace_steps; intros [].
    + destruct (result (runTx_build self args)) as [[[tx ts] pl] | e | ];
        [| destruct Hin | destruct Hin].
      destruct Hin as [Hin | [Hin | Hin]]; try discriminate Hin.
      revert Hin.
      apply (not_In_of_Forall from_resultCb); [| reflexivity].
      apply engine_results_Forall. intros error result _.
      apply runTx_resultCb_events.
  - intros t tx ts pl Hbuild.
    apply runTx_build_inv in Hbuild as (ctx' & data & Hctx' & _ & Hfrom' & _).
    rewrite Hctx in Hctx'. injection Hctx' as <-.
    rewrite Hfrom in Hfrom'. now injection Hfrom'.
Qed.

(** X5: without an explicit sender, a context API that offers
    [getAddress] decides the sender: the record carries what the accessor
    returns and no provider is asked for its accounts. *)
Theorem runTx_default_address (checkVMError : jsval -> completion) (self : Blockchain)
    (args f a : jsval) (ctx : TransactionContext) :
  transactionContextAPI self = Some ctx ->
  get args "from" = ret f ->
  truthy f = false ->
  getAddress ctx = Some a ->
  (forall k, ~ In (GetAccountsCall k) (trace (runTx checkVMError self args caller_cb)))
  /\ (forall t tx timestamp payLoad,
         runTx_build self args = (t, Done (tx, timestamp, payLoad)) ->
         tx_from tx = a).
Proof.
  intros Hctx Hf Htf Ha.
  apply (runTx_quiet_sender checkVMError self args a ctx Hctx).
  unfold runTx_from. rewrite Hf, bind_ret_l, Htf, Ha. reflexivity.
Qed.

Lemma runTx_default_address_witness :
  forallb (fun ev => negb (is_GetAccountsCall ev))
    (trace (runTx Sample.no_vm_error
              (Sample.blockchain "vm" true More.with_address Sample.engine_ok)
              Sample.deployment caller_cb)) = true.
Proof.
  apply forallb_forall. intros ev Hin. destruct ev; try reflexivity.
  exfalso. revert Hin.
  apply (proj1 (runTx_default_address Sample.no_vm_error
                  (Sample.blockchain "vm" true More.with_address Sample.engine_ok)
                  Sample.deployment JUndefined Sample.sender More.with_address
                  eq_refl eq_refl eq_refl eq_refl)).
Defined.

(** X6: the lookup of an account never makes a submission fail.  When
    neither the intent nor the context API names a sender, the resolved
    sender is 0 or the first entry of the provider's list; that entry is
    truthy, came without an error and, on the simulated backend, is an
    account the simulator knows.  The resolution only stays open when the
    provider never answers. *)
Theorem runTx_from_fallback (self : Blockchain) (args f : jsval)
    (ctx : TransactionContext) :
  get args "from" = ret f ->
  truthy f = false ->
  getAddress ctx = None ->
  match result (runTx_from self args ctx) with
  | Threw _ => False
  | Hung =>
      exists p, getCurrentProvider self = Some p /\ getAccounts_reply p = None
  | Done v =>
      v = JNum 0
      \/ exists p error accounts,
          getCurrentProvider self = Some p
          /\ getAccounts_reply p = Some (error, accounts)
          /\ truthy error = false
          /\ get accounts "0" = ret v
          /\ truthy v = true
          /\ (isVM self = true -> vmAccounts self v = true)
  end.
Proof.
  intros Hf Htf Hctx. unfold runTx_from, getAccounts.
  rewrite Hf, bind_ret_l, Htf, Hctx.
  destruct (getCurrentProvider self) as [p | ]; [| cbn; now left].
  destruct (getAccounts_reply p) as [[error accounts] | ] eqn:Hreply;
    [| cbn; now exists p].
  destruct (truthy error) eqn:Herr; [cbn; now left |].
  cbn [await bind try_catch].
  destruct (get accounts "0") as [t0 [a | e | ]] eqn:Hget; cbn; try now left.
  - apply get_Done_inv in Hget as Hget'.
    destruct (truthy a) eqn:Ha; cbn; [| now left].
    destruct (isVM self) eqn:HisVM; cbn.
    + destruct (vmAccounts self a) eqn:Hknown; cbn; [| now left].
      right. exists p, error, accounts. auto 10.
    + right. exists p, error, accounts. repeat split; auto. discriminate.
  - pose proof (trace_get accounts "0") as Ht. rewrite Hget in Ht. cbn in Ht.
    destruct accounts as [ | | | | [ | ] | ]; discriminate Hget.
Qed.

Lemma runTx_from_fallback_witness :
  match result (runTx_from (Sample.blockchain "vm" true Sample.bare Sample.engine_ok)
                  Sample.deployment Sample.bare) with
  | Threw _ => False
  | Hung => True
  | Done v => v = JNum 0 \/ truthy v = true
  end.
Proof.
  pose proof (runTx_from_fallback
                (Sample.blockchain "vm" true Sample.bare Sample.engine_ok)
                Sample.deployment JUndefined Sample.bare eq_refl eq_refl eq_refl)
    as H.
  destruct (result (runTx_from _ _ _)) as [v | e | ]; [| exact H | exact I].
  destruct H as [H | (p & error & accounts & _ & _ & _ & _ & H & _)]; auto.
Defined.

(** ** One announcement, one dispatch, matching notifications *)

Lemma filter_nil_of_Forall (P Q : event -> bool) (l : list event) :
  Forall (fun ev => P ev = true) l ->
  (forall ev, P ev = true -> Q ev = false) ->
  List.filter Q l = [].
Proof.
  intros Hall HPQ. induction Hall as [| ev l Hev _ IH]; [reflexivity |].
  cbn. now rewrite (HPQ ev Hev).
Qed.

Lemma runTx_resultCb_matches (checkVMError : jsval -> completion) (self : Blockchain)
    (tx : Tx) (timestamp : jsval) (payLoad : PayLoad) (error result : jsval) :
  Forall (fun ev =>
            match ev with
            | Trigger_executed eventName a =>
                eventName = executed_name tx
                /\ a = executed_args tx timestamp payLoad (ex_result a) (ex_rawAddress a)
            | _ => True
            end)
    (in_callback
       (runTx_resultCb checkVMError self tx timestamp payLoad caller_cb error result)).
Proof.
  apply in_callback_Forall; [| exact (fun _ => I)].
  unfold runTx_resultCb, runTx_deliver, caller_cb, executed_name, executed_args.
  repeat first [rewrite trace_call | progress trace_steps];
    repeat constructor.
Qed.

(** X7: a submission is announced at most once and dispatched exactly
    when it is announced; the engine gets the announced record, and every
    executed notification carries the sender, destination, data, call
    flag, timestamp and payload that were announced, under the event name
    chosen by the call flag. *)
Theorem runTx_announced_is_dispatched (checkVMError : jsval -> completion)
    (self : Blockchain) (args : jsval) (timestamp : jsval) (tx : Tx)
    (payLoad : PayLoad) :
  let tr := trace (runTx checkVMError self args caller_cb) in
  In (Trigger_initiatingTransaction timestamp tx payLoad) tr ->
  List.filter is_initiating tr = [Trigger_initiatingTransaction timestamp tx payLoad]
  /\ List.filter is_RawRunCall tr = [RawRunCall (Tx_to_js tx)]
  /\ forall eventName a,
      In (Trigger_executed eventName a) tr ->
      eventName = (if truthy (tx_useCall tx) then "callExecuted"
                   else "transactionExecuted")
      /\ ex_from a = tx_from tx /\ ex_to a = tx_to tx /\ ex_data a = tx_data tx
      /\ ex_useCall a = tx_useCall tx /\ ex_timestamp a = timestamp
      /\ ex_payLoad a = payLoad.
Proof.
  intros tr. subst tr. rewrite runTx_trace.
  pose proof (runTx_build_trace self args) as Hpre.
  intros Hin. apply in_app_or in Hin as [Hin | Hin].
  { exfalso. revert Hin. now apply runTx_build_not_executed. }
  destruct (result (runTx_build self args)) as [[[tx0 ts0] pl0] | e | ];
    [| destruct Hin | destruct Hin].
  pose proof (engine_results_Forall _
                (runTx_resultCb checkVMError self tx0 ts0 pl0 caller_cb)
                (rawRun (txRunner self) (Tx_to_js tx0))
                (fun error result _ =>
                   runTx_resultCb_events checkVMError self tx0 ts0 pl0 error result))
    as Hrest.
  assert (Hhead : Trigger_initiatingTransaction ts0 tx0 pl0
                  = Trigger_initiatingTransaction timestamp tx payLoad).
  { destruct Hin as [Hin | [Hin | Hin]]; [exact Hin | discriminate Hin |].
    exfalso. revert Hin.
    apply (not_In_of_Forall from_resultCb); [exact Hrest | reflexivity]. }
  injection Hhead as -> -> ->.
  rewrite !List.filter_app. cbn [List.filter is_initiating is_RawRunCall].
  rewrite (filter_nil_of_Forall is_GetAccountsCall is_initiating _ Hpre)
    by (intros []; cbn; congruence).
  rewrite (filter_nil_of_Forall is_GetAccountsCall is_RawRunCall _ Hpre)
    by (intros []; cbn; congruence).
  rewrite (filter_nil_of_Forall from_resultCb is_initiating _ Hrest)
    by (intros []; cbn; congruence).
  rewrite (filter_nil_of_Forall from_resultCb is_RawRunCall _ Hrest)
    by (intros []; cbn; congruence).
  split; [reflexivity |]. split; [reflexivity |].
  intros eventName a Hex. apply in_app_or in Hex as [Hex | Hex].
  { exfalso. revert Hex. now apply runTx_build_not_executed. }
  destruct Hex as [Hex | [Hex | Hex]]; try discriminate Hex.
  pose proof (engine_results_Forall _
                (runTx_resultCb checkVMError self tx timestamp payLoad caller_cb)
                (rawRun (txRunner self) (Tx_to_js tx))
                (fun error result _ =>
                   runTx_resultCb_matches checkVMError self tx timestamp payLoad
                     error result))
    as Hmatch.
  rewrite List.Forall_forall in Hmatch. apply Hmatch in Hex as [-> Ha].
  rewrite Ha. cbn. auto 10.
Qed.

Lemma runTx_announced_is_dispatched_witness :
  List.filter is_RawRunCall
    (trace (runTx Sample.no_vm_error
              (Sample.blockchain "injected" false Sample.bare Sample.engine_ok)
              Sample.deployment caller_cb))
  = [RawRunCall (Tx_to_js Sample.deployment_tx)].
Proof.
  apply (runTx_announced_is_dispatched Sample.no_vm_error
           (Sample.blockchain "injected" false Sample.bare Sample.engine_ok)
           Sample.deployment (JNum 1600000000000) Sample.deployment_tx
           Sample.no_payLoad).
  vm_compute. right. left. reflexivity.
Defined.

(** ** One answer of the engine, one call of the callback *)

Lemma quiet_get (v : jsval) (k : string) : quiet (get v k).
Proof. destruct v as [ | | | | [ | ] | ]; split; cbn; congruence. Qed.

Lemma quiet_call (c : completion) : quiet (call c).
Proof. destruct c; split; cbn; congruence. Qed.

Lemma quiet_ret {A} (a : A) : quiet (ret a).
Proof. split; cbn; congruence. Qed.

Lemma answers_once_bind_quiet {A} (m : M A) (f : A -> M unit) :
  quiet m -> (forall a, answers_once (f a)) -> answers_once (bind m f).
Proof.
  intros [Ht Hr] Hf. destruct m as [t [a | e | ]]; cbn in Ht, Hr; subst t.
  - specialize (Hf a). unfold answers_once in *. cbn.
    destruct (f a) as [t' o]. exact Hf.
  - reflexivity.
  - congruence.
Qed.

Lemma answers_once_emit (ev : event) (k : M unit) :
  is_answer ev = false -> answers_once k -> answers_once (emit ev;; k).
Proof.
  intros Hev Hk. unfold answers_once in *. rewrite bind_emit.
  destruct k as [t [[] | e | ]]; cbn in *; now rewrite Hev.
Qed.

Lemma answers_once_caller_cb (args : list jsval) : answers_once (caller_cb args).
Proof. reflexivity. Qed.

Ltac answers_once_steps :=
  repeat first
    [ apply answers_once_caller_cb
    | apply answers_once_emit; [reflexivity |]
    | apply answers_once_bind_quiet;
      [first [apply quiet_get | apply quiet_call | apply quiet_ret] | intros ?]
    | match goal with
      | |- answers_once (if ?b then _ else _) => destruct b
      | |- quiet (if ?b then _ else _) => destruct b
      end ].

Lemma quiet_bind {A B} (m : M A) (f : A -> M B) :
  quiet m -> (forall a, quiet (f a)) -> quiet (bind m f).
Proof.
  intros [Ht Hr] Hf. destruct m as [t [a | e | ]]; cbn in Ht, Hr; subst t.
  - destruct (Hf a) as [Hta Hra]. unfold quiet. cbn.
    destruct (f a) as [t' o]. cbn in *. subst t'. auto.
  - split; cbn; congruence.
  - congruence.
Qed.

Lemma runTx_deliver_once (isVM : bool) (txResult : jsval) :
  answers_once (runTx_deliver isVM txResult caller_cb).
Proof.
  unfold runTx_deliver. apply answers_once_bind_quiet.
  - destruct (truthy txResult); [| apply quiet_ret].
    apply quiet_bind; [apply quiet_get | intros r].
    destruct (truthy r); [| apply quiet_ret].
    apply quiet_bind; [apply quiet_get | intros address].
    apply quiet_bind; [apply quiet_get | intros execResult].
    apply quiet_bind; [| intros returnValue; apply quiet_ret].
    destruct (truthy execResult && isVM); [apply quiet_get | apply quiet_ret].
  - intros ar. apply answers_once_caller_cb.
Qed.

Lemma runTx_resultCb_once (checkVMError : jsval -> completion) (self : Blockchain)
    (tx : Tx) (timestamp : jsval) (payLoad : PayLoad) (error result : jsval) :
  answers_once
    (runTx_resultCb checkVMError self tx timestamp payLoad caller_cb error result).
Proof.
  unfold runTx_resultCb.
  answers_once_steps; apply runTx_deliver_once.
Qed.

Lemma engine_results_answers (handler : jsval -> jsval -> M unit)
    (calls : list engine_call) :
  (forall error result, answers_once (handler error result)) ->
  length (List.filter is_answer (engine_results handler calls))
  = length (result_calls calls).
Proof.
  intros Hh. unfold engine_results.
  induction calls as [| c calls IH]; [reflexivity |].
  cbn [flat_map result_calls]. rewrite List.filter_app, length_app, IH.
  destruct c as [n tx g | e | | e r]; cbn [List.filter length]; try reflexivity.
  now rewrite (Hh e r).
Qed.

(** X8: every answer of the engine to the dispatched record ends in
    exactly one call of the caller's callback, or in one exception that
    escapes the result callback; nothing else calls the callback.  So in
    a whole submission these ends are as many as the answers of the
    engine, and there is none when nothing was dispatched. *)
Theorem runTx_answers_once (checkVMError : jsval -> completion) (self : Blockchain)
    (args : jsval) :
  (forall tx timestamp payLoad error result,
      length (List.filter is_answer
                (in_callback (runTx_resultCb checkVMError self tx timestamp payLoad
                                caller_cb error result))) = 1)
  /\ length (List.filter is_answer (trace (runTx checkVMError self args caller_cb)))
     = match result (runTx_build self args) with
       | Done (tx, _, _) =>
           length (result_calls (rawRun (txRunner self) (Tx_to_js tx)))
       | _ => 0
       end.
Proof.
  split; [intros; apply runTx_resultCb_once |].
  rewrite runTx_trace, List.filter_app, length_app.
  rewrite (filter_nil_of_Forall is_GetAccountsCall is_answer _
             (runTx_build_trace self args))
    by (intros []; cbn; congruence).
  destruct (result (runTx_build self args)) as [[[tx ts] pl] | e | ];
    try reflexivity.
  cbn [List.filter is_answer is_Cb orb length Nat.add].
  apply engine_results_answers. intros error result.
  apply runTx_resultCb_once.
Qed.

(** ** Intents without data *)

Lemma runTx_build_needs_data (self : Blockchain) (args d : jsval) :
  get args "data" = ret d ->
  d = JUndefined \/ d = JNull ->
  forall built, result (runTx_build self args) <> Done built.
Proof.
  intros Hd Hnull [[tx ts] pl] Hres.
  assert (Hbuild : runTx_build self args
                   = (trace (runTx_build self args), Done (tx, ts, pl))).
  { destruct (runTx_build self args) as [t o]. cbn in Hres. now subst o. }
  apply runTx_build_inv in Hbuild as (ctx & data & _ & _ & _ & _ & _ & _ & Hdata & Hhex & _).
  rewrite Hd in Hdata. injection Hdata as <-.
  destruct Hnull as [-> | ->]; discriminate Hhex.
Qed.

Lemma runTx_needs_data (checkVMError : jsval -> completion) (self : Blockchain)
    (args d : jsval) (cb : list jsval -> M unit) :
  get args "data" = ret d ->
  d = JUndefined \/ d = JNull ->
  Forall (fun ev => is_GetAccountsCall ev = true)
    (trace (runTx checkVMError self args cb))
  /\ forall u, result (runTx checkVMError self args cb) <> Done u.
Proof.
  intros Hd Hnull.
  pose proof (runTx_build_needs_data self args d Hd Hnull) as Hnot.
  split.
  - rewrite runTx_trace.
    destruct (result (runTx_build self args)) as [built | e | ] eqn:Hres.
    + now destruct (Hnot built).
    + rewrite app_nil_r. apply runTx_build_trace.
    + rewrite app_nil_r. apply runTx_build_trace.
  - intros u. unfold runTx. rewrite result_bind.
    destruct (result (runTx_build self args)) as [built | e | ] eqn:Hres;
      [now destruct (Hnot built) | discriminate | discriminate].
Qed.

(** X9: an intent whose [data] is [undefined] or [null] is never
    announced, never dispatched, never notified as executed and never
    reaches the callback; the promise of [runTx] does not fulfil. *)
Theorem runTx_nullish_data (checkVMError : jsval -> completion) (self : Blockchain)
    (args d : jsval) :
  get args "data" = ret d ->
  d = JUndefined \/ d = JNull ->
  Forall (fun ev => is_initiating ev || is_RawRunCall ev || is_executed ev
                    || is_Cb ev = false)
    (trace (runTx checkVMError self args caller_cb))
  /\ forall u, result (runTx checkVMError self args caller_cb) <> Done u.
Proof.
  intros Hd Hnull.
  destruct (runTx_needs_data checkVMError self args d caller_cb Hd Hnull)
    as [Htrace Hresult].
  split; [| exact Hresult].
  eapply List.Forall_impl; [| exact Htrace].
  intros ev Hev. destruct ev; try discriminate Hev; reflexivity.
Qed.

Lemma runTx_nullish_data_witness :
  Forall (fun ev => is_initiating ev || is_RawRunCall ev || is_executed ev
                    || is_Cb ev = false)
    (trace (runTx Sample.no_vm_error
              (Sample.blockchain "vm" true Sample.bare Sample.engine_ok)
              (JObj [("to", Sample.account); ("useCall", JBool true)]) caller_cb)).
Proof.
  apply (runTx_nullish_data Sample.no_vm_error
           (Sample.blockchain "vm" true Sample.bare Sample.engine_ok)
           (JObj [("to", Sample.account); ("useCall", JBool true)]) JUndefined
           eq_refl).
  now left.
Defined.

(** ** More on contract creation *)

Lemma createContract_cb_error (ToString : jsval -> string) (c : Contract)
    (error : jsval) (rest : list jsval) :
  truthy error = true ->
  createContract_cb ToString c (error :: rest)
  = ([FinalCbError
        (creation_errored c
           (ToString (if truthy (field error "message")
                      then field error "message" else error)))], Done tt).
Proof.
  intros Herr. unfold createContract_cb. cbn [nth].
  rewrite Herr, (get_field_truthy error "message" Herr), bind_ret_l. reflexivity.
Qed.

(** The trace of a creation whose dispatch gets one answer. *)
Lemma createContract_single_answer (checkVMError : jsval -> completion)
    (ToString : jsval -> string) (self : Blockchain) (c : Contract)
    (data args : jsval) (t : list event) (tx : Tx) (timestamp : jsval)
    (payLoad : PayLoad) (error result : jsval) :
  createContract_args c data = ret args ->
  runTx_build self args = (t, Done (tx, timestamp, payLoad)) ->
  result_calls (rawRun (txRunner self) (Tx_to_js tx)) = [(error, result)] ->
  createContract checkVMError ToString self c data
  = (t ++ Trigger_initiatingTransaction timestamp tx payLoad
       :: RawRunCall (Tx_to_js tx)
       :: in_callback
            (runTx_resultCb checkVMError self tx timestamp payLoad
               (createContract_cb ToString c) error result),
     Done tt).
Proof.
  intros Hargs Hbuild Hcalls. unfold createContract, runTx.
  rewrite Hargs, bind_ret_l, Hbuild. cbn [bind].
  rewrite !bind_emit.
  rewrite (engine_results_single _ _ error result Hcalls).
  unfold prepend. cbn. reflexivity.
Qed.

(** X10: when the one answer to the dispatch of a creation carries an
    error (a cancellation in a hook is reported that way), the final
    callback gets ['creation of X errored: '] followed by the message of
    the error, or by the error itself when it has no message; nothing is
    notified as executed and no address is delivered. *)
Theorem createContract_dispatch_error (checkVMError : jsval -> completion)
    (ToString : jsval -> string) (self : Blockchain) (c : Contract)
    (data args : jsval) (t : list event) (tx : Tx) (timestamp : jsval)
    (payLoad : PayLoad) (error result : jsval) :
  createContract_args c data = ret args ->
  runTx_build self args = (t, Done (tx, timestamp, payLoad)) ->
  result_calls (rawRun (txRunner self) (Tx_to_js tx)) = [(error, result)] ->
  truthy error = true ->
  createContract checkVMError ToString self c data
  = (t ++ [Trigger_initiatingTransaction timestamp tx payLoad;
           RawRunCall (Tx_to_js tx);
           FinalCbError
             (creation_errored c
                (ToString (if truthy (field error "message")
                           then field error "message" else error)))],
     Done tt).
Proof.
  intros Hargs Hbuild Hcalls Herr.
  rewrite (createContract_single_answer checkVMError ToString self c data args t tx
             timestamp payLoad error result Hargs Hbuild Hcalls).
  rewrite runTx_resultCb_error by exact Herr.
  rewrite createContract_cb_error by exact Herr.
  reflexivity.
Qed.

Lemma createContract_dispatch_error_witness :
  exists t tx timestamp payLoad,
    createContract Sample.no_vm_error Sample.to_string
      (Sample.blockchain "vm" true Sample.bare Sample.engine_cancelled)
      Sample.storage Sample.bytecode
    = (t ++ [Trigger_initiatingTransaction timestamp tx payLoad;
             RawRunCall (Tx_to_js tx);
             FinalCbError "creation of Storage errored: Transaction canceled by user."],
       Done tt).
Proof.
  assert (Ha : createContract_args Sample.storage Sample.bytecode
               = ret Sample.creation_args) by reflexivity.
  eassert (E : runTx_build
                 (Sample.blockchain "vm" true Sample.bare Sample.engine_cancelled)
                 Sample.creation_args
               = (_, Done (_, _, _))) by (vm_compute; reflexivity).
  do 4 eexists.
  exact (createContract_dispatch_error Sample.no_vm_error Sample.to_string
           (Sample.blockchain "vm" true Sample.bare Sample.engine_cancelled)
           Sample.storage Sample.bytecode Sample.creation_args _ _ _ _
           (JStr "Transaction canceled by user.") JUndefined
           Ha E eq_refl eq_refl).
Defined.

(** X11: when the one answer to the dispatch of a creation carries no
    error and a receipt whose status is not ['0x0'] (and the VM check
    passes on the simulated backend), the final callback gets [null], the
    contract and the address read from the receipt: [createdAddress] on
    the simulated backend, [contractAddress] otherwise. *)
Theorem createContract_delivers_address (checkVMError : jsval -> completion)
    (ToString : jsval -> string) (self : Blockchain) (c : Contract)
    (data args : jsval) (t : list event) (tx : Tx) (timestamp : jsval)
    (payLoad : PayLoad) (error result r : jsval) :
  createContract_args c data = ret args ->
  runTx_build self args = (t, Done (tx, timestamp, payLoad)) ->
  result_calls (rawRun (txRunner self) (Tx_to_js tx)) = [(error, result)] ->
  truthy error = false ->
  get result "result" = ret r ->
  truthy r = true ->
  strict_eq_str (field r "status") "0x0" = false ->
  (isVM self = true ->
   exists vmError e,
     checkVMError result = Normal vmError
     /\ get vmError "error" = ret e /\ truthy e = false) ->
  let address := field r (if isVM self then "createdAddress" else "contractAddress") in
  createContract checkVMError ToString self c data
  = (t ++ Trigger_initiatingTransaction timestamp tx payLoad
       :: RawRunCall (Tx_to_js tx)
       :: Trigger_executed (executed_name tx)
            (executed_args tx timestamp payLoad result address)
       :: (if isVM self then [CheckVMErrorCall result] else [])
       ++ [FinalCbOk c address],
     Done tt).
Proof.
  intros Hargs Hbuild Hcalls Herr Hr Htr Hstatus Hvm address. subst address.
  rewrite (createContract_single_answer checkVMError ToString self c data args t tx
             timestamp payLoad error result Hargs Hbuild Hcalls).
  rewrite (runTx_resultCb_success checkVMError self tx timestamp payLoad _
             error result r Herr Hr Htr Hvm).
  assert (Hcb : createContract_cb ToString c
                  [JNull; result; field r (address_field self); returnValue_of self r]
                = ([FinalCbOk c (field r (address_field self))], Done tt)).
  { unfold createContract_cb. cbn [nth truthy].
    rewrite Hr, bind_ret_l, (get_field_truthy r "status" Htr), bind_ret_l.
    rewrite Hstatus, andb_false_r. reflexivity. }
  rewrite Hcb. unfold prepend, address_field. cbn. reflexivity.
Qed.

Lemma createContract_delivers_address_witness :
  In (FinalCbOk Sample.storage (JStr "0xd9145CCE52D386f254917e481eB44e9943F39138"))
     (trace (createContract Sample.no_vm_error Sample.to_string
               (Sample.blockchain "vm" true Sample.bare More.engine_mined)
               Sample.storage Sample.bytecode)).
Proof.
  assert (Ha : createContract_args Sample.storage Sample.bytecode
               = ret Sample.creation_args) by reflexivity.
  eassert (E : runTx_build
                 (Sample.blockchain "vm" true Sample.bare More.engine_mined)
                 Sample.creation_args
               = (_, Done (_, _, _))) by (vm_compute; reflexivity).
  rewrite (createContract_delivers_address Sample.no_vm_error Sample.to_string
             (Sample.blockchain "vm" true Sample.bare More.engine_mined)
             Sample.storage Sample.bytecode Sample.creation_args _ _ _ _
             JNull (JObj [("result", More.receipt_ok)]) More.receipt_ok
             Ha E eq_refl eq_refl eq_refl eq_refl eq_refl
             (fun _ => ex_intro _ _ (ex_intro _ (JBool false)
                                       (conj eq_refl (conj eq_refl eq_refl))))).
  vm_compute. auto 10.
Defined.

(** ** What the payload of a creation carries *)

Lemma lookup_update_eq (k : string) (v : jsval) (fs : list (string * jsval)) :
  lookup_field k (update_field k v fs) = v.
Proof.
  induction fs as [| [k' v'] fs IH]; cbn.
  - now rewrite String.eqb_refl.
  - destruct (String.eqb_spec k k') as [-> | Hne]; cbn.
    + now rewrite String.eqb_refl.
    + apply String.eqb_neq in Hne. now rewrite Hne.
Qed.

Lemma lookup_update_ne (k k' : string) (v : jsval) (fs : list (string * jsval)) :
  k <> k' -> lookup_field k (update_field k' v fs) = lookup_field k fs.
Proof.
  intros Hne. induction fs as [| [k0 v0] fs IH]; cbn.
  - apply String.eqb_neq in Hne. now rewrite Hne.
  - destruct (String.eqb_spec k' k0) as [-> | Hne0]; cbn.
    + apply String.eqb_neq in Hne. now rewrite Hne.
    + destruct (k =? k0)%string; [reflexivity | exact IH].
Qed.

Lemma runTx_build_payLoad (self : Blockchain) (args : jsval) (t : list event)
    (tx : Tx) (timestamp : jsval) (payLoad : PayLoad) :
  runTx_build self args = (t, Done (tx, timestamp, payLoad)) ->
  exists data, get args "data" = ret data /\ runTx_payLoad data = ret payLoad.
Proof.
  unfold runTx_build, the_transactionContextAPI. intros H.
  destruct (transactionContextAPI self) as [ctx | ]; [| discriminate].
  rewrite bind_ret_l in H.
  apply bind_Done_inv in H as (t1 & value & t1' & _ & H & ->).
  apply bind_Done_inv in H as (t2 & from & t2' & _ & H & ->).
  apply bind_Done_inv in H as (t3 & to & t3' & _ & H & ->).
  apply bind_Done_inv in H as (t4 & data & t4' & Hdata & H & ->).
  apply bind_Done_inv in H as (t5 & dataHex & t5' & _ & H & ->).
  apply bind_Done_inv in H as (t6 & useCall & t6' & _ & H & ->).
  apply bind_Done_inv in H as (t7 & ts & t7' & _ & H & ->).
  apply bind_Done_inv in H as (t8 & pl & t8' & Hpl & H & ->).
  injection H as <- <- <- <-.
  pose proof (runTx_payLoad_trace data) as Hp. rewrite Hpl in Hp. cbn in Hp. subst t8.
  exists data. split; [now apply get_Done_inv in Hdata | exact Hpl].
Qed.

(** X12: for an object as [data], the payload announced for a creation
    carries the name, the ABI and the link references of the selected
    contract, whatever the formatter had put under these keys; the
    bytecode and the other fields of [data] are handed on unchanged, the
    record has no destination and is not a call. *)
Theorem createContract_payLoad (self : Blockchain) (c : Contract)
    (fs : list (string * jsval)) (args : jsval) (t : list event) (tx : Tx)
    (timestamp : jsval) (payLoad : PayLoad) :
  createContract_args c (JObj fs) = ret args ->
  runTx_build self args = (t, Done (tx, timestamp, payLoad)) ->
  contractName payLoad = JStr (name c)
  /\ contractABI payLoad = abi c
  /\ linkReferences payLoad = bytecodeLinkReferences c
  /\ funAbi payLoad = lookup_field "funAbi" fs
  /\ funArgs payLoad = lookup_field "funArgs" fs
  /\ contractBytecode payLoad = lookup_field "contractBytecode" fs
  /\ tx_data tx = lookup_field "dataHex" fs
  /\ tx_to tx = JUndefined
  /\ tx_useCall tx = JBool false.
Proof.
  intros Hargs Hbuild. cbn in Hargs. injection Hargs as <-.
  pose proof (runTx_build_payLoad _ _ _ _ _ _ Hbuild) as (data & Hdata & Hpl).
  apply runTx_build_inv in Hbuild
    as (ctx & data' & _ & _ & _ & _ & Hto & HuseCall & Hdata' & Hhex & _).
  rewrite Hdata in Hdata'. injection Hdata' as <-.
  cbn in Hdata, Hto, HuseCall. injection Hdata as <-.
  injection Hto as <-. injection HuseCall as <-.
  cbn in Hpl, Hhex. injection Hpl as <-. injection Hhex as <-. cbn.
  repeat split;
    repeat first [ rewrite lookup_update_eq
                 | rewrite lookup_update_ne by discriminate ];
    reflexivity.
Qed.

Lemma createContract_payLoad_witness :
  exists t tx timestamp payLoad,
    runTx_build (Sample.blockchain "vm" true Sample.bare Sample.engine_ok)
      Sample.creation_args = (t, Done (tx, timestamp, payLoad))
    /\ contractName payLoad = JStr "Storage"
    /\ tx_data tx = JStr "0x6080604052".
Proof.
  eassert (E : runTx_build (Sample.blockchain "vm" true Sample.bare Sample.engine_ok)
                 Sample.creation_args
               = (_, Done (_, _, _))) by (vm_compute; reflexivity).
  pose proof (createContract_payLoad
                (Sample.blockchain "vm" true Sample.bare Sample.engine_ok)
                Sample.storage [("dataHex", JStr "0x6080604052")]
                Sample.creation_args _ _ _ _ eq_refl E)
    as (Hname & _ & _ & _ & _ & _ & Hdata & _).
  do 4 eexists. split; [exact E |]. split; [exact Hname | exact Hdata].
Defined.

(** X13: a creation whose [data] is [undefined] or [null] never reaches
    the final callback: nothing is announced or dispatched, and the
    failure is only a promise that does not fulfil. *)
Theorem createContract_nullish_data (checkVMError : jsval -> completion)
    (ToString : jsval -> string) (self : Blockchain) (c : Contract) (data : jsval) :
  data = JUndefined \/ data = JNull ->
  Forall (fun ev => is_GetAccountsCall ev = true)
    (trace (createContract checkVMError ToString self c data))
  /\ forall u, result (createContract checkVMError ToString self c data) <> Done u.
Proof.
  intros Hnull. unfold createContract.
  assert (Hargs : createContract_args c data
                  = ret (JObj [("data", data); ("useCall", JBool false)]))
    by (destruct Hnull as [-> | ->]; reflexivity).
  rewrite Hargs, bind_ret_l.
  apply (runTx_needs_data checkVMError self _ data); [| exact Hnull].
  destruct Hnull as [-> | ->]; reflexivity.
Qed.

Lemma createContract_nullish_data_witness :
  Forall (fun ev => is_GetAccountsCall ev = true)
    (trace (createContract Sample.no_vm_error Sample.to_string
              (Sample.blockchain "vm" true Sample.bare Sample.engine_ok)
              Sample.storage JUndefined)).
Proof.
  apply (createContract_nullish_data Sample.no_vm_error Sample.to_string
           (Sample.blockchain "vm" true Sample.bare Sample.engine_ok)
           Sample.storage JUndefined).
  now left.
Defined.

(** ** A failing formatter *)




(** ** Calls of contract methods *)

Lemma runOrCallContractMethod_args_inv (funABI value address data args : jsval) :
  runOrCallContractMethod_args funABI value address data = ret args ->
  exists data',
    args = JObj [("to", address); ("data", data');
                 ("useCall",
                  JBool (strict_eq_str (field funABI "stateMutability") "view"
                         || strict_eq_str (field funABI "stateMutability") "pure"))]
    /\ (if strict_eq_str (field funABI "type") "fallback"
        then set data "dataHex" value = ret data'
        else data' = data).
Proof.
  unfold runOrCallContractMethod_args. intros H.
  apply bind_Done_inv in H as (t1 & type & t1' & Htype & H & Ht).
  apply bind_Done_inv in H as (t2 & data' & t2' & Hdata & H & Ht').
  apply bind_Done_inv in H as (t3 & sm & t3' & Hsm & H & Ht'').
  apply get_Done_inv in Htype, Hsm.
  unfold field. rewrite Htype, Hsm. cbn [result snd ret].
  injection H as <- <-. exists data'. split; [reflexivity |].
  destruct (strict_eq_str type "fallback").
  - destruct data; cbn in Hdata; try discriminate Hdata.
    injection Hdata as <- <-. reflexivity.
  - now injection Hdata.
Qed.

(** X15: the record [runOrCallContractMethod] submits goes to the given
    address and is a call exactly when the method is [view] or [pure];
    a call has value 0 and is notified as [callExecuted], anything else
    takes the value of the context API (0 without accessor) and is
    notified as [transactionExecuted].  The [value] argument of the
    method never becomes the value of the record: it replaces the data
    when the method is the fallback function. *)
Theorem runOrCallContractMethod_record (self : Blockchain)
    (funABI value address data args : jsval) (ctx : TransactionContext)
    (t : list event) (tx : Tx) (timestamp : jsval) (payLoad : PayLoad) :
  runOrCallContractMethod_args funABI value address data = ret args ->
  transactionContextAPI self = Some ctx ->
  runTx_build self args = (t, Done (tx, timestamp, payLoad)) ->
  let view :=
    strict_eq_str (field funABI "stateMutability") "view"
    || strict_eq_str (field funABI "stateMutability") "pure" in
  tx_to tx = address
  /\ tx_useCall tx = JBool view
  /\ tx_value tx =
       (if view then JNum 0
        else match getValue ctx with Some v => v | None => JNum 0 end)
  /\ executed_name tx = (if view then "callExecuted" else "transactionExecuted")
  /\ tx_data tx =
       (if strict_eq_str (field funABI "type") "fallback" then value
        else field data "dataHex").
Proof.
  intros Hargs Hctx Hbuild view.
  apply runOrCallContractMethod_args_inv in Hargs as (data' & -> & Hdata').
  fold view in Hbuild |- *.
  apply runTx_build_inv in Hbuild
    as (ctx' & d & Hctx' & Hvalue & _ & _ & Hto & HuseCall & Hd & Hhex & _).
  rewrite Hctx in Hctx'. injection Hctx' as <-.
  cbn in Hto, HuseCall, Hd. injection Hto as Hto. injection HuseCall as HuseCall.
  injection Hd as <-.
  assert (Hv : tx_value tx =
               (if view then JNum 0
                else match getValue ctx with Some v => v | None => JNum 0 end)).
  { unfold runTx_value in Hvalue. cbn in Hvalue.
    destruct view; [now injection Hvalue |].
    destruct (getValue ctx); now injection Hvalue. }
  repeat split; auto.
  - unfold executed_name. rewrite <- HuseCall. now destruct view.
  - destruct (strict_eq_str (field funABI "type") "fallback").
    + destruct data; cbn in Hdata'; try discriminate Hdata'.
      injection Hdata' as <-. cbn in Hhex. rewrite lookup_update_eq in Hhex.
      now injection Hhex.
    + subst data'. unfold field. now rewrite Hhex.
Qed.

Lemma runOrCallContractMethod_record_witness :
  exists t tx timestamp payLoad,
    runTx_build (Sample.blockchain "vm" true Sample.with_value Sample.engine_ok)
      More.fallback_args = (t, Done (tx, timestamp, payLoad))
    /\ tx_value tx = JNum 7
    /\ tx_data tx = JStr "0xdeadbeef".
Proof.
  eassert (E : runTx_build
                 (Sample.blockchain "vm" true Sample.with_value Sample.engine_ok)
                 More.fallback_args
               = (_, Done (_, _, _))) by (vm_compute; reflexivity).
  pose proof (runOrCallContractMethod_record
                (Sample.blockchain "vm" true Sample.with_value Sample.engine_ok)
                More.fallback_abi (JStr "0xdeadbeef") Sample.account Sample.bytecode
                More.fallback_args Sample.with_value _ _ _ _ eq_refl eq_refl E)
    as (_ & _ & Hvalue & _ & Hdata).
  do 4 eexists. split; [exact E |]. split; [exact Hvalue | exact Hdata].
Defined.

(** Extensionality of the pipeline in the caller's callback. *)
Lemma bind_ext {A B} (m : M A) (f g : A -> M B) :
  (forall a, f a = g a) -> bind m f = bind m g.
Proof. intros H. destruct m as [t [a | e | ]]; cbn; now rewrite ?H. Qed.

Lemma runTx_deliver_ext (isVM : bool) (txResult : jsval)
    (cb1 cb2 : list jsval -> M unit) :
  (forall a, cb1 a = cb2 a) ->
  runTx_deliver isVM txResult cb1 = runTx_deliver isVM txResult cb2.
Proof. intros H. unfold runTx_deliver. apply bind_ext. intros ar. apply H. Qed.

Lemma runTx_resultCb_ext (checkVMError : jsval -> completion) (self : Blockchain)
    (tx : Tx) (timestamp : jsval) (payLoad : PayLoad)
    (cb1 cb2 : list jsval -> M unit) (error result : jsval) :
  (forall a, cb1 a = cb2 a) ->
  runTx_resultCb checkVMError self tx timestamp payLoad cb1 error result
  = runTx_resultCb checkVMError self tx timestamp payLoad cb2 error result.
Proof.
  intros H. unfold runTx_resultCb.
  destruct (truthy error); [apply H |].
  apply bind_ext. intros r. apply bind_ext. intros rawAddress.
  apply bind_ext. intros _.
  destruct (isVM self); [| now apply runTx_deliver_ext].
  apply bind_ext. intros _. apply bind_ext. intros vmError.
  apply bind_ext. intros e.
  destruct (truthy e); [| now apply runTx_deliver_ext].
  apply bind_ext. intros message. apply H.
Qed.

Lemma runTx_ext (checkVMError : jsval -> completion) (self : Blockchain)
    (args : jsval) (cb1 cb2 : list jsval -> M unit) :
  (forall a, cb1 a = cb2 a) ->
  runTx checkVMError self args cb1 = runTx checkVMError self args cb2.
Proof.
  intros H. unfold runTx. apply bind_ext. intros [[tx ts] pl].
  apply bind_ext. intros _. apply bind_ext. intros _.
  f_equal. unfold engine_results. apply flat_map_ext. intros [ | | | error result];
    try reflexivity.
  now rewrite (runTx_resultCb_ext checkVMError self tx ts pl cb1 cb2 error result H).
Qed.

(** X16: unless [lookupOnly] is set, [runOrCallContractMethod] never
    uses the output callback: whatever the formatter and the engine do,
    the outcome is the same for any two output callbacks. *)
Theorem runOrCallContractMethod_output (checkVMError : jsval -> completion)
    (ToString : jsval -> string) (self : Blockchain)
    (funABI value address lookupOnly : jsval) (logMsg : string)
    (logCallback outputCb outputCb' : jsval -> M unit)
    (formatter : list formatter_call) :
  truthy lookupOnly = false ->
  runOrCallContractMethod checkVMError ToString self funABI value address
    lookupOnly logMsg logCallback outputCb formatter
  = runOrCallContractMethod checkVMError ToString self funABI value address
      lookupOnly logMsg logCallback outputCb' formatter.
Proof.
  intros Hlookup. unfold runOrCallContractMethod.
  apply flat_map_ext. intros [error data | msg | data]; try reflexivity.
  f_equal. unfold runOrCallContractMethod_cb.
  destruct (truthy error); [reflexivity |].
  apply bind_ext. intros _. apply bind_ext. intros args.
  apply runTx_ext. intros a. unfold runOrCallContractMethod_runTx_cb.
  now rewrite Hlookup.
Qed.

Lemma runOrCallContractMethod_output_witness :
  runOrCallContractMethod Sample.no_vm_error Sample.to_string
    (Sample.blockchain "vm" true Sample.bare More.engine_mined)
    More.transfer_abi JUndefined Sample.account (JBool false) "transact to Storage.store"
    (tagged_cb "log") (tagged_cb "output")
    [Formatter_callback JNull Sample.bytecode]
  = runOrCallContractMethod Sample.no_vm_error Sample.to_string
      (Sample.blockchain "vm" true Sample.bare More.engine_mined)
      More.transfer_abi JUndefined Sample.account (JBool false) "transact to Storage.store"
      (tagged_cb "log") (fun _ => throw JNull)
      [Formatter_callback JNull Sample.bytecode].
Proof.
  apply (runOrCallContractMethod_output Sample.no_vm_error Sample.to_string).
  reflexivity.
Defined.

(** ** callMethod *)

Lemma callMethod_from_runTx_from (self : Blockchain) (ctx : TransactionContext) :
  callMethod_from self ctx = runTx_from self (JObj []) ctx.
Proof. unfold runTx_from. cbn [get lookup_field]. now rewrite bind_ret_l. Qed.

Lemma callMethod_trace
    (provider_callMethod : Provider -> jsval -> jsval -> jsval -> promise)
    (self : Blockchain) (address abi methodName : jsval)
    (outputCb : jsval -> M unit) :
  trace (callMethod provider_callMethod self address abi methodName outputCb) =
    match transactionContextAPI self with
    | None => []
    | Some ctx =>
        trace (runTx_from self (JObj []) ctx)
        ++ match result (runTx_from self (JObj []) ctx) with
           | Done from =>
               match callMethod_promise provider_callMethod self address abi
                       methodName with
               | Fulfilled v =>
                   Trigger_executed "callExecuted"
                     (mkExecutedArgs JNull from address (JStr "0x123") (JBool true) v
                        (JNum (now self)) empty_payLoad address)
                   :: trace (outputCb v)
               | _ => []
               end
           | _ => []
           end
    end.
Proof.
  unfold callMethod, the_transactionContextAPI, callMethod_promise.
  destruct (transactionContextAPI self) as [ctx | ]; [| reflexivity].
  rewrite bind_ret_l, trace_bind, callMethod_from_runTx_from. f_equal.
  destruct (result (runTx_from self (JObj []) ctx)) as [from | e0 | ];
    try reflexivity.
  cbn [tx_timestamp tx_from tx_to tx_data tx_useCall truthy].
  destruct (now self =? 0)%Z eqn:Hnow.
  - apply Z.eqb_eq in Hnow.
    destruct (getCurrentProvider self) as [p | ];
      [destruct (provider_callMethod p address abi methodName) |];
      cbn; try reflexivity.
    destruct (outputCb v); reflexivity.
  - destruct (getCurrentProvider self) as [p | ];
      [destruct (provider_callMethod p address abi methodName) |];
      cbn; try reflexivity.
    destruct (outputCb v); reflexivity.
Qed.

(** X17: [callMethod] bypasses the submission pipeline: it never
    announces a transaction, never hands anything to the engine (so no
    confirmation hook can run) and never runs the VM check.  What it
    notifies is always a [callExecuted] without error for the given
    address; and when the provider's call is rejected, nothing is
    notified and the output callback is not called. *)
Theorem callMethod_bypasses_pipeline
    (provider_callMethod : Provider -> jsval -> jsval -> jsval -> promise)
    (self : Blockchain) (address abi methodName : jsval) :
  let tr := trace (callMethod provider_callMethod self address abi methodName
                     (tagged_cb "output")) in
  Forall (fun ev => is_initiating ev || is_RawRunCall ev || is_CheckVMErrorCall ev
                    || is_FinalCb ev = false) tr
  /\ (forall eventName a,
         In (Trigger_executed eventName a) tr ->
         eventName = "callExecuted" /\ ex_error a = JNull /\ ex_to a = address
         /\ ex_rawAddress a = address /\ ex_useCall a = JBool true)
  /\ (forall p e,
         getCurrentProvider self = Some p ->
         provider_callMethod p address abi methodName = Rejected e ->
         Forall (fun ev => is_GetAccountsCall ev = true) tr).
Proof.
  intros tr. subst tr. rewrite callMethod_trace.
  destruct (transactionContextAPI self) as [ctx | ].
  2: { split; [constructor | split; [intros ? ? [] | constructor]]. }
  pose proof (runTx_from_trace self (JObj []) ctx) as Hpre.
  set (pre := trace (runTx_from self (JObj []) ctx)) in *.
  assert (Hpre' : Forall (fun ev => is_initiating ev || is_RawRunCall ev
                                    || is_CheckVMErrorCall ev || is_FinalCb ev = false)
                    pre).
  { eapply List.Forall_impl; [| exact Hpre]. intros []; cbn; congruence. }
  assert (Hnoexec : forall eventName a, ~ In (Trigger_executed eventName a) pre).
  { intros n a. apply (not_In_of_Forall is_GetAccountsCall); [exact Hpre | reflexivity]. }
  set (rest := match result (runTx_from self (JObj []) ctx) with
               | Done _ => _ | _ => _ end).
  assert (Hrest : rest = []
                  \/ exists from v,
                      callMethod_promise provider_callMethod self address abi methodName
                      = Fulfilled v
                      /\ rest = [Trigger_executed "callExecuted"
                                   (mkExecutedArgs JNull from address (JStr "0x123")
                                      (JBool true) v (JNum (now self)) empty_payLoad
                                      address);
                                 Cb [JStr "output"; v]]).
  { subst rest. destruct (result (runTx_from self (JObj []) ctx)) as [from | e0 | ];
      [| now left | now left].
    destruct (callMethod_promise _ _ _ _ _) as [ | v | e];
      [now left | | now left].
    right. exists from, v. split; reflexivity. }
  clearbody rest.
  destruct Hrest as [-> | (from & v & Hprom & ->)].
  - rewrite app_nil_r. split; [exact Hpre' |]. split.
    + intros n a Hin. now destruct (Hnoexec n a).
    + intros p e _ _. exact Hpre.
  - split; [| split].
    + apply Forall_app. split; [exact Hpre' | repeat constructor].
    + intros n a Hin. apply in_app_or in Hin as [Hin | Hin];
        [now destruct (Hnoexec n a) |].
      destruct Hin as [Hin | [Hin | []]]; [| discriminate Hin].
      injection Hin as <- <-. cbn. auto.
    + intros p e Hp Hrej. unfold callMethod_promise in Hprom.
      rewrite Hp, Hrej in Hprom. discriminate Hprom.
Qed.

Lemma callMethod_bypasses_pipeline_witness :
  Forall (fun ev => is_GetAccountsCall ev = true)
    (trace (callMethod (fun _ _ _ _ => Rejected (JStr "execution reverted"))
              (Sample.blockchain "web3" false Sample.bare Sample.engine_ok)
              Sample.account (JObj []) (JStr "retrieve") (tagged_cb "output"))).
Proof.
  apply (proj2 (proj2 (callMethod_bypasses_pipeline
                         (fun _ _ _ _ => Rejected (JStr "execution reverted"))
                         (Sample.blockchain "web3" false Sample.bare Sample.engine_ok)
                         Sample.account (JObj []) (JStr "retrieve")))
           Sample.web3 (JStr "execution reverted"));
    reflexivity.
Defined.

(** ** Gas price and fees *)

Section Gas.

Variable ToString : jsval -> string.
Variable Web3_fromWei : jsval -> jsval -> completion.
Variable Web3_toWei : jsval -> jsval -> completion.
Variable Web3_toBN : jsval -> completion.
Variable BN_mul : jsval -> jsval -> completion.
Variable typeConversion_toInt : jsval -> completion.
Variable toString10 : jsval -> completion.

Local Abbreviation fromWei' := (fromWei Web3_fromWei typeConversion_toInt toString10).
Local Abbreviation determineGasPrice_cb' :=
  (determineGasPrice_cb ToString Web3_fromWei typeConversion_toInt toString10).
Local Abbreviation determineGasFees_try' :=
  (determineGasFees_try ToString Web3_fromWei Web3_toWei Web3_toBN BN_mul
     typeConversion_toInt toString10).
Local Abbreviation determineGasFees' :=
  (determineGasFees ToString Web3_fromWei Web3_toWei Web3_toBN BN_mul
     typeConversion_toInt toString10).

Lemma quiet_method_toString10 (value : jsval) :
  quiet (method_toString10 toString10 value).
Proof.
  destruct value; cbn [method_toString10];
    first [apply quiet_call | split; cbn; congruence].
Qed.

Lemma quiet_fromWei (value doTypeConversion unit : jsval) :
  quiet (fromWei' value doTypeConversion unit).
Proof.
  unfold fromWei. destruct (truthy doTypeConversion).
  - apply quiet_bind; [apply quiet_call | intros n; apply quiet_call].
  - apply quiet_bind; [apply quiet_method_toString10 | intros s; apply quiet_call].
Qed.

Lemma quiet_calculateFee (gas gasPrice unit : jsval) :
  quiet (calculateFee Web3_toWei Web3_toBN BN_mul toString10 gas gasPrice unit).
Proof.
  unfold calculateFee.
  repeat first [ apply quiet_call | apply quiet_get | apply quiet_method_toString10
               | apply quiet_bind; [| intros ?] ].
Qed.

Lemma quiet_determineGasFees_try (tx gasPrice : jsval) :
  quiet (determineGasFees_try' tx gasPrice).
Proof.
  unfold determineGasFees_try.
  repeat first [ apply quiet_get | apply quiet_calculateFee | apply quiet_fromWei
               | apply quiet_ret | apply quiet_bind; [| intros ?] ].
Qed.

Lemma quiet_eta {A} (m : M A) : quiet m -> m = ([], result m).
Proof. intros [Ht _]. destruct m as [t o]. cbn in *. now subst t. Qed.

Lemma get_not_nullish (e : jsval) (k : string) :
  e <> JUndefined -> e <> JNull -> get e k = ret (field e k).
Proof.
  intros Hu Hn. unfold field.
  destruct e as [ | | b | n | [ | c s] | fs]; try congruence; reflexivity.
Qed.

(** X18: what [determineGasPrice] tells its callback.  A provider error
    gives the fixed sentence followed by the error, and the price is not
    converted; a converted price is passed after [null]; a conversion
    that throws gives the warning with the message of the exception.  In
    every case the callback is called exactly once, unless the exception
    has no readable message. *)
Theorem determineGasPrice_outcomes (error gasPrice : jsval) :
  (truthy error = true ->
   determineGasPrice_cb' caller_cb error gasPrice
   = ([Cb [JStr ("Unable to retrieve the current network gas price." +:+ warnMessage
                 +:+ ToString error)]], Done tt))
  /\ (truthy error = false ->
      forall v,
        result (fromWei' gasPrice (JBool false) (JStr "gwei")) = Done v ->
        determineGasPrice_cb' caller_cb error gasPrice = ([Cb [JNull; v]], Done tt))
  /\ (truthy error = false ->
      forall e,
        result (fromWei' gasPrice (JBool false) (JStr "gwei")) = Threw e ->
        e <> JUndefined -> e <> JNull ->
        determineGasPrice_cb' caller_cb error gasPrice
        = ([Cb [JStr (warnMessage +:+ ToString (field e "message")); JNull;
                JBool false]], Done tt))
  /\ answers_once (determineGasPrice_cb' caller_cb error gasPrice).
Proof.
  pose proof (quiet_fromWei gasPrice (JBool false) (JStr "gwei")) as Hq.
  pose proof (quiet_eta _ Hq) as Heta. destruct Hq as [_ Hhung].
  unfold determineGasPrice_cb.
  split; [| split; [| split]].
  - intros Herr. now rewrite Herr.
  - intros Herr v Hres. rewrite Herr, Heta, Hres. reflexivity.
  - intros Herr e Hres Hu Hn. rewrite Herr, Heta, Hres. cbn [bind try_catch].
    rewrite (get_not_nullish e "message" Hu Hn). reflexivity.
  - destruct (truthy error); [reflexivity |]. rewrite Heta.
    destruct (result (fromWei' gasPrice (JBool false) (JStr "gwei"))) as [v | e | ];
      [reflexivity | | congruence].
    cbn [bind try_catch].
    destruct e as [ | | b | n | [ | c s] | fs]; reflexivity.
Qed.

(** X19: the callback of [determineGasPrice] is called inside the [try]
    block.  When it throws on the converted price, the exception is
    caught there and the callback is called a second time, now with the
    warning built from the message of its own exception. *)
Theorem determineGasPrice_calls_back_twice (cb : list jsval -> M unit)
    (error gasPrice v e : jsval) (t : list event) :
  truthy error = false ->
  result (fromWei' gasPrice (JBool false) (JStr "gwei")) = Done v ->
  cb [JNull; v] = (t, Threw e) ->
  e <> JUndefined -> e <> JNull ->
  determineGasPrice_cb' cb error gasPrice
  = prepend t (cb [JStr (warnMessage +:+ ToString (field e "message")); JNull;
                   JBool false]).
Proof.
  intros Herr Hres Hcb Hu Hn.
  pose proof (quiet_eta _ (quiet_fromWei gasPrice (JBool false) (JStr "gwei"))) as Heta.
  unfold determineGasPrice_cb. rewrite Herr, Heta, Hres. cbn [bind].
  rewrite Hcb. cbn [try_catch app].
  rewrite (get_not_nullish e "message" Hu Hn), bind_ret_l.
  unfold prepend. now destruct (cb [JStr _; JNull; JBool false]).
Qed.

(** X20: [determineGasFeesCb] calls its callback exactly once with a
    text and a status, whatever goes wrong while the fee is computed
    (a missing transaction included), as long as the exception is not
    [undefined] or [null]: the status is [true] exactly when the fee was
    computed and converted, and otherwise the text is the warning
    followed by the message of the exception. *)
Theorem determineGasFees_status (tx gasPrice : jsval) :
  (forall e, result (determineGasFees_try' tx gasPrice) = Threw e ->
             e <> JUndefined /\ e <> JNull) ->
  exists text status,
    determineGasFees' tx gasPrice caller_cb
    = ([Cb [JStr text; JBool status]], Done tt)
    /\ (status = true <->
        exists r, result (determineGasFees_try' tx gasPrice) = Done r)
    /\ (status = false ->
        exists e, result (determineGasFees_try' tx gasPrice) = Threw e
                  /\ text = warnMessage +:+ ToString (field e "message")).
Proof.
  intros Hthrown.
  pose proof (quiet_determineGasFees_try tx gasPrice) as Hq.
  pose proof (quiet_eta _ Hq) as Heta. destruct Hq as [_ Hhung].
  unfold determineGasFees. rewrite Heta.
  destruct (result (determineGasFees_try' tx gasPrice)) as [r | e | ] eqn:Hres;
    [| | congruence].
  - assert (Hr : exists text, r = (JStr text, JBool true)).
    { pose proof Heta as Hbuild.
      unfold determineGasFees_try in Hbuild.
      apply bind_Done_inv in Hbuild as (t1 & gas & t1' & _ & Hbuild & _).
      apply bind_Done_inv in Hbuild as (t2 & fee & t2' & _ & Hbuild & _).
      apply bind_Done_inv in Hbuild as (t3 & ether & t3' & _ & Hbuild & _).
      injection Hbuild as _ <-. eauto. }
    destruct Hr as [text ->].
    exists text, true. cbn. split; [reflexivity |].
    split; [split; eauto | discriminate].
  - destruct (Hthrown e eq_refl) as [Hu Hn].
    exists (warnMessage +:+ ToString (field e "message")), false.
    cbn [try_catch]. rewrite (get_not_nullish e "message" Hu Hn). cbn.
    split; [reflexivity |].
    split; [split; [discriminate | intros [r Hr]; discriminate Hr] |].
    intros _. exists e. auto.
Qed.

End Gas.

Lemma determineGasPrice_outcomes_witness :
  determineGasPrice_cb Sample.to_string (fun n _ => Normal n)
    (fun n => Normal n) (fun n => Normal n)
    caller_cb (JStr "timeout") JUndefined
  = ([Cb [JStr ("Unable to retrieve the current network gas price." +:+ warnMessage
                +:+ "timeout")]], Done tt).
Proof.
  apply (proj1 (determineGasPrice_outcomes Sample.to_string (fun n _ => Normal n)
                  (fun n => Normal n) (fun n => Normal n) (JStr "timeout") JUndefined)).
  reflexivity.
Defined.

Lemma determineGasPrice_calls_back_twice_witness :
  determineGasPrice_cb Sample.to_string (fun n _ => Normal n)
    (fun n => Normal n) (fun n => Normal n)
    More.cb_failing_on_success JNull (JStr "20")
  = ([Cb [JStr (warnMessage +:+ "cannot render"); JNull; JBool false]], Done tt).
Proof.
  apply (determineGasPrice_calls_back_twice Sample.to_string (fun n _ => Normal n)
           (fun n => Normal n) (fun n => Normal n)
           More.cb_failing_on_success JNull (JStr "20") (JStr "20")
           (mkError "Error" "cannot render") []);
    first [reflexivity | discriminate].
Defined.

Lemma determineGasFees_status_witness :
  exists text,
    determineGasFees Sample.to_string (fun n _ => Normal n) (fun n _ => Normal n)
      (fun n => Normal n) (fun a _ => Normal a) (fun n => Normal n) (fun n => Normal n)
      JUndefined (JStr "20") caller_cb
    = ([Cb [JStr text; JBool false]], Done tt).
Proof.
  destruct (determineGasFees_status Sample.to_string (fun n _ => Normal n)
              (fun n _ => Normal n) (fun n => Normal n) (fun a _ => Normal a)
              (fun n => Normal n) (fun n => Normal n) JUndefined (JStr "20"))
    as (text & status & Heq & Hstatus & _).
  - intros e He. vm_compute in He. injection He as <-. split; discriminate.
  - exists text. destruct status; [| exact Heq].
    destruct (proj1 Hstatus eq_refl) as [r Hr]. vm_compute in Hr. discriminate Hr.
Defined.
